(** * chitin-engine-lib: dual-transport client, shallow embedding

    The Python client ([chitin/_ffi.py], [chitin/_http.py],
    [chitin/_engine.py], [chitin/_resolve.py], [chitin/_types.py]) is
    embedded as pure functions in a small trace-and-exception monad.

    - Python values coming out of [json.loads] are the inductive [pyval];
      a dict is a [gmap string pyval].  Non-integral JSON numbers are
      outside the model.
    - A Python [str] is represented by the byte string of its UTF-8
      encoding, so [s.encode("utf-8")] is the identity and
      [b.decode("utf-8")] is a validity check.
    - The decision engine is opaque: the native library and the sidecar
      are oracles that map the marshalled arguments of a call to its
      reply.  Every call made on a transport is appended to a trace.
    - A buffer out-parameter is an address and the memory found there;
      the adapter works on the bytes copy that [c_char_p.value] makes of
      it, both to read the text and as the argument of
      [chitin_free_string]. *)

From Stdlib Require Import ZArith String Ascii List Bool Lia.
From stdpp Require Import base option gmap strings list.

Local Open Scope string_scope.
Local Open Scope Z_scope.
Local Open Scope list_scope.

Set Warnings "-register-all".

(** ** Python values *)

Inductive pyval : Type :=
  | PNone
  | PBool (b : bool)
  | PInt (z : Z)
  | PStr (s : string)
  | PList (l : list pyval)
  | PDict (d : gmap string pyval).

(** Truthiness, as used by [bool(x)], [x or y], [if x]. *)
Definition py_bool (v : pyval) : bool :=
  match v with
  | PNone => false
  | PBool b => b
  | PInt z => negb (Z.eqb z 0)
  | PStr s => negb (String.eqb s "")
  | PList l => match l with [] => false | _ => true end
  | PDict d => negb (bool_decide (size d = 0%nat))
  end.

(** [x or y] *)
Definition py_or (x y : pyval) : pyval := if py_bool x then x else y.

(** [x == n] for an int [n]: Python compares [False]/[True] as 0/1. *)
Definition py_eq_int (v : pyval) (n : Z) : bool :=
  match v with
  | PInt z => Z.eqb z n
  | PBool b => Z.eqb (if b then 1 else 0) n
  | _ => false
  end.

(** [d.get(k)] and [d.get(k, default)] *)
Definition dict_get (d : gmap string pyval) (k : string) : pyval :=
  default PNone (d !! k).

Definition dict_get_default (d : gmap string pyval) (k : string) (dflt : pyval) : pyval :=
  default dflt (d !! k).

(** ** Exceptions and results

    [ChitinError] carries whatever Python objects were passed as status
    and message; the other constructors are the built-in exceptions the
    client can let escape. *)
Inductive exn : Type :=
  | ChitinError (status : pyval) (message : pyval)
  | KeyError (key : string)
  | AttributeError
  | TypeError
  | ValueError
  | JSONDecodeError
  | UnicodeDecodeError
  | OSError (message : string)
  | OtherException (class_name : string).

Inductive result (A : Type) : Type :=
  | Ret (a : A)
  | Raise (e : exn).
Arguments Ret {A} a.
Arguments Raise {A} e.

(** ** Public types ([chitin/_types.py]) *)

Module TrustLevel.
Definition SYSTEM : Z := 0.
Definition OPERATOR : Z := 1.
Definition USER : Z := 2.
Definition EXTERNAL : Z := 3.
Definition UNKNOWN : Z := 4.
End TrustLevel.

Record Decision : Type := mkDecision {
  allowed : bool;
  outcome : pyval;
  event_id : Z;
  rule_id : pyval;
  reason : pyval
}.

Record ExplainResult : Type := mkExplainResult {
  text : pyval;
  trace_chain : pyval
}.

(** Status codes, shared verbatim by [_ffi.py] and [_http.py]. *)
Definition CHITIN_OK : Z := 0.
Definition CHITIN_ERR_INVALID : Z := -1.
Definition CHITIN_ERR_DENIED : Z := -2.
Definition CHITIN_ERR_ESCALATED : Z := -3.
Definition CHITIN_ERR_INTERNAL : Z := -4.
Definition CHITIN_ERR_NOT_FOUND : Z := -5.

(** ** Transport calls and the trace monad *)

Inductive lib_fn : Type :=
  | fn_engine_new | fn_engine_free | fn_ingest | fn_propose
  | fn_record_result | fn_is_traced | fn_explain | fn_last_error
  | fn_register_tool.

(** What ctypes passes for a [c_char_p] argument: an address handed out
    by the engine, or the address of the storage of a Python bytes
    object (which is what a bytes argument is converted to). *)
Inductive char_ptr : Type :=
  | EnginePointer (addr : Z)
  | BytesObject (content : string).

(** [HttpPost] is one call of [urllib.request.urlopen] with a POST
    request; redirects are followed inside that call. *)
Inductive tcall : Type :=
  | LibCall (f : lib_fn)
  | LibFreeString (p : char_ptr) (len : Z)
  | HttpPost (url : string) (body : gmap string pyval).

(** A computation appends the transport calls it makes to the trace and
    either returns or raises. *)
Definition M (A : Type) : Type := list tcall -> result A * list tcall.

Definition ret {A} (a : A) : M A := fun t => (Ret a, t).
Definition raise {A} (e : exn) : M A := fun t => (Raise e, t).
Definition bind {A B} (m : M A) (k : A -> M B) : M B :=
  fun t => match m t with
           | (Ret a, t') => k a t'
           | (Raise e, t') => (Raise e, t')
           end.
Definition emit (c : tcall) : M unit := fun t => (Ret tt, t ++ [c]).
Definition lift {A} (r : result A) : M A := fun t => (r, t).

(** [try: body finally: fin] *)
Definition try_finally {A} (body : M A) (fin : M unit) : M A :=
  fun t => match body t with
           | (r, t') => match fin t' with
                        | (Ret _, t'') => (r, t'')
                        | (Raise e, t'') => (Raise e, t'')
                        end
           end.

(** [try: body except Exception: handler] *)
Definition try_except {A} (body : M A) (handler : M A) : M A :=
  fun t => match body t with
           | (Ret a, t') => (Ret a, t')
           | (Raise _, t') => handler t'
           end.

Notation "'let*' x ':=' m 'in' k" := (bind m (fun x => k))
  (at level 10, x pattern, m at level 100, k at level 200).
Notation "m ';;' k" := (bind m (fun _ => k))
  (at level 100, k at level 200, right associativity).

(** Run from the empty trace. *)
Definition run {A} (m : M A) : result A * list tcall := m [].

(** Number of [chitin_free_string] calls in a trace. *)
Definition is_free (c : tcall) : bool :=
  match c with LibFreeString _ _ => true | _ => false end.
Definition free_count (t : list tcall) : nat := length (List.filter is_free t).

(** Number of transport calls of any kind. *)
Definition call_count (t : list tcall) : nat := length t.

(** ** ctypes marshalling *)

Definition c_int32 (z : Z) : Z := (z + 2 ^ 31) mod 2 ^ 32 - 2 ^ 31.
Definition c_uint64 (z : Z) : Z := z mod 2 ^ 64.

(** [_to_buf]: absent is distinct from empty. *)
Definition _to_buf (s : option string) : option string * Z :=
  match s with
  | None => (None, 0)
  | Some b => (Some b, Z.of_nat (String.length b))
  end.

(** What a [char**] out-parameter holds after a call that left it
    non-NULL: the address the engine wrote, the bytes found in memory
    from that address on, and the bytes that follow, in the
    interpreter's memory, the copy that [.value] makes. *)
Record out_buffer : Type := mkOutBuffer {
  buf_addr : Z;
  buf_mem : string;
  py_after : string
}.

(** The bytes up to the first NUL. *)
Fixpoint until_nul (s : string) : string :=
  match s with
  | EmptyString => EmptyString
  | String c r => if Ascii.eqb c Ascii.zero then EmptyString else String c (until_nul r)
  end.

(** [c_char_p.value] on a non-NULL pointer: a new bytes object holding
    the C string found at the address. *)
Definition c_char_p_value (b : out_buffer) : string := until_nul (buf_mem b).

(** [ctypes.string_at(copy, size)] on a bytes object: [size] bytes read
    from the storage of the object, which is its content, a terminating
    NUL, and then whatever follows it in memory. *)
Definition string_at (copy after : string) (size : Z) : string :=
  String.substring 0 (Z.to_nat size) (copy ++ String Ascii.zero after).

(** The text the adapter reads for a buffer, and the release call it
    makes: both go through the copy [out_json.value]. *)
Definition read_text (b : out_buffer) (size : Z) : string :=
  string_at (c_char_p_value b) (py_after b) size.

Definition freed_copy (b : out_buffer) (size : Z) : tcall :=
  LibFreeString (BytesObject (c_char_p_value b)) size.

(** The native library: each entry maps the marshalled arguments to the
    returned status and the value left in the out-parameters.  A buffer
    out-parameter is [None] when the pointer is NULL. *)
Record native_lib : Type := {
  chitin_engine_new : option string -> Z -> option Z;
  chitin_ingest :
    Z -> option string -> Z -> Z -> option string -> Z -> Z * Z;
  chitin_propose :
    Z -> option string -> Z -> option string -> Z -> option string -> Z ->
    option (list Z) -> Z -> Z * Z;
  chitin_record_result : Z -> Z -> option string -> Z -> Z -> Z * Z;
  chitin_is_traced : Z -> Z -> option string -> Z -> Z * Z;
  chitin_explain : Z -> Z -> Z * option out_buffer * Z;
  chitin_last_error : Z * option out_buffer * Z;
  chitin_register_tool : Z -> option string -> Z -> option string -> Z -> Z
}.

(** What urllib makes of a request.  [InvalidUrl]: [urllib.request.Request]
    rejects the URL (it has no scheme) with ValueError and nothing is
    sent.  Otherwise [urlopen] is called and either a 2xx response is
    read, or HTTPError or URLError is raised, or another exception
    escapes from urllib (for instance http.client.RemoteDisconnected). *)
Inductive http_reply : Type :=
  | Http2xx (status : Z) (raw : string)
  | HttpError (str_e : string) (raw : string)
  | UrlError (str_reason : string)
  | InvalidUrl
  | OtherFailure (class_name : string).

(** The [urlopen] calls made for a request with the given outcome. *)
Definition calls_for (r : http_reply) (c : tcall) : list tcall :=
  match r with
  | InvalidUrl => []
  | _ => [c]
  end.

(** ** Python library functions

    [utf8_valid b] says whether [b.decode("utf-8")] succeeds,
    [json_loads s] is [json.loads] ([None] for JSONDecodeError),
    [json_dumps] is [json.dumps], and [int_of_str] is [int("...")] on a
    string ([None] for ValueError).  They are parameters of the
    adapters. *)

Definition decode_utf8 (utf8_valid : string -> bool) (b : string) : result string :=
  if utf8_valid b then Ret b else Raise UnicodeDecodeError.

(** [int(x)] *)
Definition py_int (int_of_str : string -> option Z) (v : pyval) : result Z :=
  match v with
  | PInt z => Ret z
  | PBool b => Ret (if b then 1 else 0)
  | PStr s => match int_of_str s with
              | Some z => Ret z
              | None => Raise ValueError
              end
  | PNone | PList _ | PDict _ => Raise TypeError
  end.

(** [d[k]] *)
Definition dict_item (d : gmap string pyval) (k : string) : result pyval :=
  match d !! k with
  | Some v => Ret v
  | None => Raise (KeyError k)
  end.

(** ** Native call adapter ([chitin/_ffi.py], class [_ChitinFFI]) *)

Module FFI.
Section WithPython.
Variable utf8_valid : string -> bool.
Variable json_loads : string -> option pyval.
Variable json_dumps : pyval -> string.
Variable lib : native_lib.

Definition _last_error : M string :=
  emit (LibCall fn_last_error);;
  let '(st, out_json, out_len) := chitin_last_error lib in
  match out_json with
  | None => ret "unknown error"
  | Some buf =>
      if Z.eqb st CHITIN_ERR_NOT_FOUND then ret "unknown error"
      else
        try_finally
          (let raw := string_at (c_char_p_value buf) (py_after buf) out_len in
           lift (decode_utf8 utf8_valid raw))
          (emit (LibFreeString (BytesObject (c_char_p_value buf)) out_len))
  end.

Definition engine_new (config_path : option string) : M Z :=
  let '(path_buf, path_len) := _to_buf config_path in
  emit (LibCall fn_engine_new);;
  match chitin_engine_new lib path_buf path_len with
  | None =>
      let* msg := _last_error in
      raise (ChitinError (PInt CHITIN_ERR_INTERNAL) (PStr msg))
  | Some engine => ret engine
  end.

Definition engine_free (engine : Z) : M unit :=
  emit (LibCall fn_engine_free).

(** Shared tail of every operation but propose:
    [if st != CHITIN_OK: raise ChitinError(st, self._last_error())]. *)
Definition check_ok (st : Z) : M unit :=
  if Z.eqb st CHITIN_OK then ret tt
  else
    let* msg := _last_error in
    raise (ChitinError (PInt st) (PStr msg)).

Definition ingest_call (engine : Z) (content : string) (trust_level : Z)
    (metadata : option pyval) : Z * Z :=
  let '(content_buf, content_len) := _to_buf (Some content) in
  let '(meta_buf, meta_len) :=
    match metadata with
    | Some md => _to_buf (Some (json_dumps md))
    | None => (None, 0)
    end in
  chitin_ingest lib engine content_buf content_len (c_int32 trust_level)
    meta_buf meta_len.

Definition ingest (engine : Z) (content : string) (trust_level : Z)
    (metadata : option pyval) : M Z :=
  emit (LibCall fn_ingest);;
  let '(st, out_id) := ingest_call engine content trust_level metadata in
  check_ok st;;
  ret out_id.

(** The rule id and reason taken from the last-error text of a deny or
    escalate ([try: json.loads ... except Exception: ...]). *)
Definition verdict_fields (err_json : string) : pyval * pyval :=
  match json_loads err_json with
  | Some (PDict obj) =>
      (dict_get obj "rule_id", dict_get_default obj "reason" (PStr ""))
  | _ => (PNone, PStr err_json)
  end.

(** The marshalled [chitin_propose] call: status and [out_id.value]. *)
Definition propose_call (engine : Z) (tool params : string)
    (agent_id : option string) (input_sources : option (list Z)) : Z * Z :=
  let '(tool_buf, tool_len) := _to_buf (Some tool) in
  let '(params_buf, params_len) := _to_buf (Some params) in
  let '(agent_buf, agent_len) := _to_buf agent_id in
  let '(sources_arr, sources_len) :=
    match input_sources with
    | Some (x :: l) =>
        (Some (map c_uint64 (x :: l)), Z.of_nat (length (x :: l)))
    | _ => (None, 0)
    end in
  chitin_propose lib engine tool_buf tool_len params_buf params_len
    agent_buf agent_len sources_arr sources_len.

Definition propose (engine : Z) (tool params : string)
    (agent_id : option string) (input_sources : option (list Z)) : M Decision :=
  emit (LibCall fn_propose);;
  let '(st, out_id) := propose_call engine tool params agent_id input_sources in
  if Z.eqb st CHITIN_OK then
    ret (mkDecision true (PStr "allow") out_id PNone PNone)
  else if Z.eqb st CHITIN_ERR_DENIED || Z.eqb st CHITIN_ERR_ESCALATED then
    let* err_json := _last_error in
    let '(rule_id, reason) := verdict_fields err_json in
    let outcome := if Z.eqb st CHITIN_ERR_DENIED then "deny" else "escalate" in
    ret (mkDecision false (PStr outcome) out_id rule_id reason)
  else
    let* msg := _last_error in
    raise (ChitinError (PInt st) (PStr msg)).

Definition record_result_call (engine : Z) (tool_call_id : Z)
    (output : string) (exit_code : Z) : Z * Z :=
  let '(out_buf, out_len) := _to_buf (Some output) in
  chitin_record_result lib engine (c_uint64 tool_call_id) out_buf out_len
    (c_int32 exit_code).

Definition record_result (engine : Z) (tool_call_id : Z) (output : string)
    (exit_code : Z) : M Z :=
  emit (LibCall fn_record_result);;
  let '(st, out_id) := record_result_call engine tool_call_id output exit_code in
  check_ok st;;
  ret out_id.

Definition is_traced_call (engine : Z) (event_id : Z) (label : string) : Z * Z :=
  let '(label_buf, label_len) := _to_buf (Some label) in
  chitin_is_traced lib engine (c_uint64 event_id) label_buf label_len.

Definition is_traced (engine : Z) (event_id : Z) (label : string) : M bool :=
  emit (LibCall fn_is_traced);;
  let '(st, out_result) := is_traced_call engine event_id label in
  check_ok st;;
  ret (negb (Z.eqb out_result 0)).

Definition explain (engine : Z) (event_id : Z) : M ExplainResult :=
  emit (LibCall fn_explain);;
  let '(st, out_json, out_len) := chitin_explain lib engine (c_uint64 event_id) in
  check_ok st;;
  match out_json with
  | None => ret (mkExplainResult (PStr "") (PList []))
  | Some buf =>
      if Z.eqb out_len 0 then ret (mkExplainResult (PStr "") (PList []))
      else
        let* text :=
          try_finally
            (let raw := string_at (c_char_p_value buf) (py_after buf) out_len in
             lift (decode_utf8 utf8_valid raw))
            (emit (LibFreeString (BytesObject (c_char_p_value buf)) out_len)) in
        match json_loads text with
        | Some (PDict obj) =>
            ret (mkExplainResult (dict_get_default obj "text" (PStr ""))
                                 (dict_get_default obj "trace_chain" (PList [])))
        | _ => ret (mkExplainResult (PStr text) (PList []))
        end
  end.

Definition register_tool_call (engine : Z) (name risk : string)
    (category : option string) : Z :=
  let config : gmap string pyval := {[ "risk" := PStr risk ]} in
  let config :=
    match category with
    | Some c => <[ "category" := PStr c ]> config
    | None => config
    end in
  let config_json := json_dumps (PDict config) in
  let '(name_buf, name_len) := _to_buf (Some name) in
  let '(config_buf, config_len) := _to_buf (Some config_json) in
  chitin_register_tool lib engine name_buf name_len config_buf config_len.

Definition register_tool (engine : Z) (name risk : string)
    (category : option string) : M unit :=
  emit (LibCall fn_register_tool);;
  let st := register_tool_call engine name risk category in
  check_ok st.

End WithPython.
End FFI.

(** ** RPC adapter ([chitin/_http.py], class [_ChitinHTTP]) *)

(** [s.rstrip("/")] *)
Fixpoint rstrip_slash (s : string) : string :=
  match s with
  | EmptyString => EmptyString
  | String c r =>
      match rstrip_slash r with
      | EmptyString =>
          if Ascii.eqb c "/"%char then EmptyString else String c EmptyString
      | r' => String c r'
      end
  end.

(** [out.get] on the value returned by [_post]: only a dict has [get]. *)
Definition as_dict (v : pyval) : result (gmap string pyval) :=
  match v with
  | PDict d => Ret d
  | _ => Raise AttributeError
  end.

(** [resp.status == 204 or not raw] on a 2xx response. *)
Definition empty_reply (r : http_reply) : bool :=
  match r with
  | Http2xx status raw => Z.eqb status 204 || negb (py_bool (PStr raw))
  | _ => false
  end.

Module HTTP.
Section WithPython.
Variable utf8_valid : string -> bool.
Variable json_loads : string -> option pyval.
Variable int_of_str : string -> option Z.
Variable sidecar : string -> gmap string pyval -> http_reply.
Variable base_url : string.

Definition _base : string := rstrip_slash base_url.

(** What becomes of the request that [_post path body] builds. *)
Definition reply_to (path : string) (body : gmap string pyval) : http_reply :=
  sidecar (_base ++ path)%string body.

Definition _post (path : string) (body : gmap string pyval) : M pyval :=
  let url := (_base ++ path)%string in
  match reply_to path body with
  | InvalidUrl => raise ValueError
  | Http2xx status raw =>
      emit (HttpPost url body);;
      if Z.eqb status 204 || negb (py_bool (PStr raw)) then ret (PDict ∅)
      else
        let* s := lift (decode_utf8 utf8_valid raw) in
        match json_loads s with
        | Some v => ret v
        | None => raise JSONDecodeError
        end
  | HttpError str_e raw =>
      emit (HttpPost url body);;
      let payload :=
        match decode_utf8 utf8_valid raw with
        | Ret s => match json_loads s with
                   | Some v => v
                   | None => PDict ∅
                   end
        | Raise _ => PDict ∅
        end in
      let* d := lift (as_dict payload) in
      let status := dict_get_default d "status" (PInt CHITIN_ERR_INTERNAL) in
      let msg := dict_get_default d "error" (PStr str_e) in
      raise (ChitinError status msg)
  | UrlError str_reason =>
      emit (HttpPost url body);;
      raise (ChitinError (PInt CHITIN_ERR_INTERNAL) (PStr str_reason))
  | OtherFailure class_name =>
      emit (HttpPost url body);;
      raise (OtherException class_name)
  end.

(** [int(out["event_id"])] *)
Definition int_event_id (d : gmap string pyval) : M Z :=
  let* v := lift (dict_item d "event_id") in
  lift (py_int int_of_str v).

Definition ingest_body (content : string) (trust_level : Z)
    (metadata : option pyval) : gmap string pyval :=
  let body : gmap string pyval :=
    <[ "trust" := PInt trust_level ]> {[ "content" := PStr content ]} in
  match metadata with
  | Some md => <[ "metadata" := md ]> body
  | None => body
  end.

Definition ingest (content : string) (trust_level : Z)
    (metadata : option pyval) : M Z :=
  let* out := _post "/ingest" (ingest_body content trust_level metadata) in
  let* d := lift (as_dict out) in
  let status := dict_get_default d "status" (PInt CHITIN_OK) in
  if negb (py_eq_int status CHITIN_OK) then
    raise (ChitinError status (dict_get_default d "error" (PStr "ingest failed")))
  else int_event_id d.

Definition propose_body (tool params : string) (agent_id : option string)
    (input_sources : option (list Z)) : gmap string pyval :=
  let body : gmap string pyval :=
    <[ "params" := PStr params ]> {[ "tool" := PStr tool ]} in
  let body :=
    match agent_id with
    | Some a => <[ "agent_id" := PStr a ]> body
    | None => body
    end in
  match input_sources with
  | Some l => <[ "input_sources" := PList (map PInt l) ]> body
  | None => body
  end.

Definition propose (tool params : string) (agent_id : option string)
    (input_sources : option (list Z)) : M Decision :=
  let* out := _post "/propose" (propose_body tool params agent_id input_sources) in
  let* d := lift (as_dict out) in
  let allowed := py_bool (dict_get_default d "allowed" (PBool false)) in
  let outcome := dict_get_default d "outcome" (PStr "deny") in
  let* event_id := int_event_id d in
  ret (mkDecision allowed outcome event_id
                  (dict_get d "rule_id") (dict_get d "reason")).

Definition record_result_body (tool_call_id : Z) (output : string)
    (exit_code : Z) : gmap string pyval :=
  <[ "exit_code" := PInt exit_code ]>
    (<[ "output" := PStr output ]> {[ "tool_call_id" := PInt tool_call_id ]}).

Definition record_result (tool_call_id : Z) (output : string)
    (exit_code : Z) : M Z :=
  let* out := _post "/record_result"
                (record_result_body tool_call_id output exit_code) in
  let* d := lift (as_dict out) in
  let status := dict_get_default d "status" (PInt CHITIN_OK) in
  if negb (py_eq_int status CHITIN_OK) then
    raise (ChitinError status
             (dict_get_default d "error" (PStr "record_result failed")))
  else int_event_id d.

Definition is_traced_body (event_id : Z) (label : string) : gmap string pyval :=
  <[ "label" := PStr label ]> {[ "event_id" := PInt event_id ]}.

Definition is_traced (event_id : Z) (label : string) : M bool :=
  let* out := _post "/is_traced" (is_traced_body event_id label) in
  let* d := lift (as_dict out) in
  if negb (py_eq_int (dict_get d "status") CHITIN_OK) then
    raise (ChitinError
             (dict_get_default d "status" (PInt CHITIN_ERR_INTERNAL))
             (dict_get_default d "error" (PStr "is_traced failed")))
  else ret (py_bool (dict_get_default d "traced" (PBool false))).

Definition explain_body (event_id : Z) : gmap string pyval :=
  {[ "event_id" := PInt event_id ]}.

Definition explain (event_id : Z) : M ExplainResult :=
  let* out := _post "/explain" (explain_body event_id) in
  let* d := lift (as_dict out) in
  let status := dict_get_default d "status" (PInt CHITIN_OK) in
  if negb (py_eq_int status CHITIN_OK) then
    raise (ChitinError status (dict_get_default d "error" (PStr "explain failed")))
  else
    ret (mkExplainResult (py_or (dict_get d "text") (PStr ""))
                         (py_or (dict_get d "trace_chain") (PList []))).

Definition register_tool_body (name risk : string)
    (category : option string) : gmap string pyval :=
  let body : gmap string pyval :=
    <[ "risk" := PStr risk ]> {[ "tool_name" := PStr name ]} in
  match category with
  | Some c => <[ "category" := PStr c ]> body
  | None => body
  end.

Definition register_tool (name risk : string) (category : option string) : M unit :=
  _post "/register_tool" (register_tool_body name risk category);;
  ret tt.

End WithPython.
End HTTP.

(** ** Library resolver ([chitin/_resolve.py]) *)

(** What the resolver and the constructor read from the host: the
    environment variables, the file system tests, the candidate paths
    computed from [__file__] and the working directory, the dynamic
    loader ([None]: [ctypes.CDLL] raises OSError), and whether the
    library found at a path lacks one of the [chitin_*] symbols. *)
Record host : Type := {
  env_CHITIN_LIB_PATH : option string;
  env_CHITIN_SIDECAR_URL : option string;
  platform_system : string;
  isfile : string -> bool;
  path_exists : string -> bool;
  abspath : string -> string;
  bundled_dir : string;
  cwd_release_dir : string;
  sibling_release_dir : string;
  cdll : string -> option native_lib;
  missing_symbol : string -> bool
}.

Module Resolve.

Definition _lib_name (h : host) : string :=
  let s := platform_system h in
  if String.eqb s "Linux" then "libchitin.so"
  else if String.eqb s "Darwin" then "libchitin.dylib"
  else if String.eqb s "Windows" then "chitin.dll"
  else "libchitin.so".

Definition resolve_chitin_lib (h : host) : string :=
  let lib_name := _lib_name h in
  let explicit :=
    match env_CHITIN_LIB_PATH h with
    | Some env_path =>
        if negb (String.eqb env_path "") && isfile h env_path
        then Some (abspath h env_path) else None
    | None => None
    end in
  match explicit with
  | Some p => p
  | None =>
      let bundled := (bundled_dir h ++ lib_name)%string in
      if path_exists h bundled then bundled
      else
        let dev_cwd := (cwd_release_dir h ++ lib_name)%string in
        if isfile h dev_cwd then dev_cwd
        else
          let sibling := (sibling_release_dir h ++ lib_name)%string in
          if isfile h sibling then sibling
          else lib_name
  end.

Definition _load_lib_error_message : string :=
  "Could not load the Chitin shared library. Either set CHITIN_LIB_PATH to the full path "
  ++ "to libchitin.so / libchitin.dylib / chitin.dll, install a platform-specific wheel "
  ++ "(chitin_engine_lib-*-manylinux_*.whl, etc.) that bundles the library, or set "
  ++ "CHITIN_SIDECAR_URL to use the HTTP sidecar instead.".

End Resolve.

(** [_ffi._load_lib] *)
Definition _load_lib (h : host) : result native_lib :=
  let path := Resolve.resolve_chitin_lib h in
  match cdll h path with
  | Some l => Ret l
  | None => Raise (OSError Resolve._load_lib_error_message)
  end.

(** [_ChitinFFI._setup_signatures]: the attribute lookup [lib.chitin_...]
    raises AttributeError when the library does not export the symbol. *)
Definition _setup_signatures (h : host) : result unit :=
  if missing_symbol h (Resolve.resolve_chitin_lib h) then Raise AttributeError
  else Ret tt.

(** [load_ffi], that is [_ChitinFFI()]: load, then declare the
    signatures. *)
Definition load_ffi (h : host) : result native_lib :=
  match _load_lib h with
  | Ret l =>
      match _setup_signatures h with
      | Ret _ => Ret l
      | Raise x => Raise x
      end
  | Raise x => Raise x
  end.

(** ** The session ([chitin/_engine.py], class [Engine]) *)

Inductive backend : Type := backend_none | backend_ffi | backend_http.

Record engine : Type := mkEngine {
  _backend : backend;
  _ffi : option native_lib;
  _handle : option Z;
  _http : option string   (* the sidecar URL held by the [_ChitinHTTP] *)
}.

(** A handle that is [None] is marshalled as the NULL pointer. *)
Definition handle_arg (h : option Z) : Z := default 0 h.

Module Engine.
Section WithPython.
Variable utf8_valid : string -> bool.
Variable json_loads : string -> option pyval.
Variable json_dumps : pyval -> string.
Variable int_of_str : string -> option Z.
Variable sidecar : string -> gmap string pyval -> http_reply.

Definition closed_error : exn :=
  ChitinError (PInt (-1)) (PStr "Engine is closed").

Definition unavailable_message : string :=
  "Chitin engine unavailable: native library failed to load and CHITIN_SIDECAR_URL is not set.".

(** [Engine.__init__]: native first; on ChitinError or OSError fall back
    to the sidecar when CHITIN_SIDECAR_URL is set and non-empty. *)
Definition try_ffi (h : host) (config_path : option string) : M engine :=
  let* ffi := lift (load_ffi h) in
  let* handle := FFI.engine_new utf8_valid ffi config_path in
  ret (mkEngine backend_ffi (Some ffi) (Some handle) None).

Definition try_http (h : host) : M engine :=
  match env_CHITIN_SIDECAR_URL h with
  | Some url =>
      if negb (String.eqb url "") then
        ret (mkEngine backend_http None None (Some url))
      else raise (ChitinError (PInt (-1)) (PStr unavailable_message))
  | None => raise (ChitinError (PInt (-1)) (PStr unavailable_message))
  end.

Definition __init__ (h : host) (config_path : option string) : M engine :=
  fun t =>
    match try_ffi h config_path t with
    | (Ret e, t') => (Ret e, t')
    | (Raise (ChitinError _ _), t') => try_http h t'
    | (Raise (OSError _), t') => try_http h t'
    | (Raise x, t') => (Raise x, t')
    end.

(** The exceptions of [except (ChitinError, OSError)]. *)
Definition caught (x : exn) : bool :=
  match x with
  | ChitinError _ _ | OSError _ => true
  | _ => false
  end.

Definition _ensure_open (e : engine) : M unit :=
  match _backend e with
  | backend_none => raise closed_error
  | _ => ret tt
  end.

(** Dispatch: [if self._backend == "ffi": ... else: ...].  An adapter
    field that is [None] has no methods. *)
Definition dispatch {A} (e : engine) (native : native_lib -> Z -> M A)
    (rpc : string -> M A) : M A :=
  _ensure_open e;;
  match _backend e with
  | backend_ffi =>
      match _ffi e with
      | Some l => native l (handle_arg (_handle e))
      | None => raise AttributeError
      end
  | _ =>
      match _http e with
      | Some url => rpc url
      | None => raise AttributeError
      end
  end.

Definition ingest (e : engine) (content : string) (trust_level : Z)
    (metadata : option pyval) : M Z :=
  dispatch e
    (fun l h => FFI.ingest utf8_valid json_dumps l h content trust_level metadata)
    (fun url => HTTP.ingest utf8_valid json_loads int_of_str sidecar url
                  content trust_level metadata).

Definition propose (e : engine) (tool params : string)
    (agent_id : option string) (input_sources : option (list Z)) : M Decision :=
  dispatch e
    (fun l h => FFI.propose utf8_valid json_loads l h tool params agent_id input_sources)
    (fun url => HTTP.propose utf8_valid json_loads int_of_str sidecar url
                  tool params agent_id input_sources).

Definition record_result (e : engine) (tool_call_id : Z) (output : string)
    (exit_code : Z) : M Z :=
  dispatch e
    (fun l h => FFI.record_result utf8_valid l h tool_call_id output exit_code)
    (fun url => HTTP.record_result utf8_valid json_loads int_of_str sidecar url
                  tool_call_id output exit_code).

Definition is_traced (e : engine) (event_id : Z) (label : string) : M bool :=
  dispatch e
    (fun l h => FFI.is_traced utf8_valid l h event_id label)
    (fun url => HTTP.is_traced utf8_valid json_loads sidecar url event_id label).

(** Neither [_ChitinFFI] nor [_ChitinHTTP] defines [set_label]: the
    attribute lookup on the adapter fails. *)
Definition set_label (e : engine) (event_id : Z) (label : string) : M unit :=
  dispatch e
    (fun _ _ => raise AttributeError)
    (fun _ => raise AttributeError).

Definition explain (e : engine) (event_id : Z) : M ExplainResult :=
  dispatch e
    (fun l h => FFI.explain utf8_valid json_loads l h event_id)
    (fun url => HTTP.explain utf8_valid json_loads sidecar url event_id).

Definition register_tool (e : engine) (name risk : string)
    (category : option string) : M unit :=
  dispatch e
    (fun l h => FFI.register_tool utf8_valid json_dumps l h name risk category)
    (fun url => HTTP.register_tool utf8_valid json_loads sidecar url
                  name risk category).

Definition close (e : engine) : M engine :=
  match _backend e, _ffi e, _handle e with
  | backend_ffi, Some l, Some h =>
      FFI.engine_free h;;
      ret (mkEngine backend_none None None None)
  | backend_ffi, None, Some _ => raise AttributeError
  | _, _, _ => ret (mkEngine backend_none None (_handle e) None)
  end.

End WithPython.
End Engine.

(** ** Stub transports and sample data

    Call-counting stubs for the two transports, and concrete instances of
    the Python library functions that agree with Python on the sample
    texts below. *)

(** The double quote character, and JSON text fragments. *)
Definition dq : string := String "034"%char EmptyString.
Definition json_key (k : string) : string := (dq ++ k ++ dq ++ ": ")%string.
Definition json_str (v : string) : string := (dq ++ v ++ dq)%string.

(** [{"rule_id": "r1", "reason": "blocked"}] *)
Definition error_json_full : string :=
  ("{" ++ json_key "rule_id" ++ json_str "r1" ++ ", "
       ++ json_key "reason" ++ json_str "blocked" ++ "}")%string.

(** [{"rule_id": "r1"}] *)
Definition error_json_no_reason : string :=
  ("{" ++ json_key "rule_id" ++ json_str "r1" ++ "}")%string.

(** [{"allowed": false, "outcome": "deny", "event_id": 7, "rule_id": "r1"}] *)
Definition deny_body_no_reason : string :=
  ("{" ++ json_key "allowed" ++ "false, "
       ++ json_key "outcome" ++ json_str "deny" ++ ", "
       ++ json_key "event_id" ++ "7, "
       ++ json_key "rule_id" ++ json_str "r1" ++ "}")%string.

(** [{"status": -2, "error": "denied"}] *)
Definition error_payload_denied : string :=
  ("{" ++ json_key "status" ++ "-2, "
       ++ json_key "error" ++ json_str "denied" ++ "}")%string.

(** [{"event_id": 9}] *)
Definition body_event_only : string :=
  ("{" ++ json_key "event_id" ++ "9}")%string.

(** The single byte 0xFF, which is not valid UTF-8. *)
Definition bad_utf8 : string := String "255"%char EmptyString.

(** UTF-8 validity on texts that are either pure ASCII (valid) or hold a
    byte 0x80..0xFF standing alone (invalid). *)
Fixpoint ascii_only (s : string) : bool :=
  match s with
  | EmptyString => true
  | String c r => (nat_of_ascii c <? 128)%nat && ascii_only r
  end.

(** [json.loads] on the sample texts. *)
Definition sample_json_loads (s : string) : option pyval :=
  if String.eqb s error_json_full then
    Some (PDict (<[ "reason" := PStr "blocked" ]> {[ "rule_id" := PStr "r1" ]}))
  else if String.eqb s error_json_no_reason then
    Some (PDict {[ "rule_id" := PStr "r1" ]})
  else if String.eqb s deny_body_no_reason then
    Some (PDict (<[ "rule_id" := PStr "r1" ]>
                   (<[ "event_id" := PInt 7 ]>
                      (<[ "outcome" := PStr "deny" ]>
                         {[ "allowed" := PBool false ]}))))
  else if String.eqb s error_payload_denied then
    Some (PDict (<[ "error" := PStr "denied" ]> {[ "status" := PInt (-2) ]}))
  else if String.eqb s body_event_only then
    Some (PDict {[ "event_id" := PInt 9 ]})
  else if String.eqb s "{}" then Some (PDict ∅)
  else if String.eqb s "[]" then Some (PList [])
  else None.

Definition json_dumps_stub (v : pyval) : string := "{}".
Definition int_of_str_stub (s : string) : option Z := None.

(** A native library that answers every operation with the same status
    and out-value, [chitin_explain] with the given payload buffer, and
    [chitin_last_error] with the given reply. *)
Definition stub_lib (st out : Z) (payload : option out_buffer * Z)
    (last_error : Z * option out_buffer * Z) : native_lib :=
  {| chitin_engine_new := fun _ _ => Some 1;
     chitin_ingest := fun _ _ _ _ _ _ => (st, out);
     chitin_propose := fun _ _ _ _ _ _ _ _ _ => (st, out);
     chitin_record_result := fun _ _ _ _ _ => (st, out);
     chitin_is_traced := fun _ _ _ _ => (st, out);
     chitin_explain := fun _ _ => (st, fst payload, snd payload);
     chitin_last_error := last_error;
     chitin_register_tool := fun _ _ _ _ _ => st |}.

(** A buffer at some address whose memory holds the given bytes. *)
Definition engine_buffer (s : string) : out_buffer :=
  {| buf_addr := 4096; buf_mem := s; py_after := EmptyString |}.

(** A last-error reply holding the given text. *)
Definition last_error_text (s : string) : Z * option out_buffer * Z :=
  (CHITIN_OK, Some (engine_buffer s), Z.of_nat (String.length s)).

(** A sidecar that gives the same answer to every request. *)
Definition stub_sidecar (r : http_reply) : string -> gmap string pyval -> http_reply :=
  fun _ _ => r.

(** A host where CHITIN_LIB_PATH names an existing file that is not a
    library, nothing else is installed, and no sidecar is configured. *)
Definition host_without_transports : host :=
  {| env_CHITIN_LIB_PATH := Some "/tmp/test_engine_fallback.py";
     env_CHITIN_SIDECAR_URL := None;
     platform_system := "Linux";
     isfile := fun p => String.eqb p "/tmp/test_engine_fallback.py";
     path_exists := fun _ => false;
     abspath := fun p => p;
     bundled_dir := "/site-packages/chitin/_lib/";
     cwd_release_dir := "/work/target/release/";
     sibling_release_dir := "/chitin-engine/target/release/";
     cdll := fun _ => None;
     missing_symbol := fun _ => false |}.

(** [needle in haystack] *)
Fixpoint contains (needle haystack : string) : bool :=
  String.prefix needle haystack ||
  match haystack with
  | EmptyString => false
  | String _ rest => contains needle rest
  end.

(** ** Equivalent engine reports for one propose

    The native engine reports a verdict as a status, the event id in the
    out-parameter and, for deny and escalate, a last-error text; the
    sidecar reports it as the fields of the response object.  The two
    reports are equivalent when they carry the same verdict, event id,
    and the same [rule_id] and [reason] fields. *)
Definition reports_same_verdict (json_loads : string -> option pyval)
    (st out_id : Z) (err_json : string) (d : gmap string pyval) : Prop :=
  d !! "event_id" = Some (PInt out_id)
  /\ ((st = CHITIN_OK
       /\ d !! "allowed" = Some (PBool true)
       /\ d !! "outcome" = Some (PStr "allow")
       /\ dict_get d "rule_id" = PNone
       /\ dict_get d "reason" = PNone)
      \/ (exists obj,
            json_loads err_json = Some (PDict obj)
            /\ d !! "allowed" = Some (PBool false)
            /\ ((st = CHITIN_ERR_DENIED /\ d !! "outcome" = Some (PStr "deny"))
                \/ (st = CHITIN_ERR_ESCALATED
                    /\ d !! "outcome" = Some (PStr "escalate")))
            /\ obj !! "rule_id" = d !! "rule_id"
            /\ obj !! "reason" = d !! "reason")).

(** ** Further vocabulary for traces, hosts and paths *)

(** Calls on the native library, as opposed to HTTP requests. *)
Definition is_native_call (c : tcall) : bool :=
  match c with
  | HttpPost _ _ => false
  | _ => true
  end.

(** [s.endswith("/")] *)
Fixpoint ends_with_slash (s : string) : bool :=
  match s with
  | EmptyString => false
  | String c EmptyString => Ascii.eqb c "/"%char
  | String _ r => ends_with_slash r
  end.

(** The test guarding step 1 of [resolve_chitin_lib]:
    [env_path and os.path.isfile(env_path)]. *)
Definition override_usable (h : host) : bool :=
  match env_CHITIN_LIB_PATH h with
  | Some env_path => negb (String.eqb env_path "") && isfile h env_path
  | None => false
  end.

(** A host where a library is bundled with the package and loads, and a
    sidecar is configured as well. *)
Definition host_with_library : host :=
  {| env_CHITIN_LIB_PATH := None;
     env_CHITIN_SIDECAR_URL := Some "http://localhost:8080";
     platform_system := "Darwin";
     isfile := fun _ => false;
     path_exists := fun p => String.eqb p "/site-packages/chitin/_lib/libchitin.dylib";
     abspath := fun p => p;
     bundled_dir := "/site-packages/chitin/_lib/";
     cwd_release_dir := "/work/target/release/";
     sibling_release_dir := "/chitin-engine/target/release/";
     cdll := fun p =>
       if String.eqb p "/site-packages/chitin/_lib/libchitin.dylib"
       then Some (stub_lib CHITIN_OK 1 (None, 0) (CHITIN_ERR_NOT_FOUND, None, 0))
       else None;
     missing_symbol := fun _ => false |}.

(** A host without any library where only the sidecar is configured. *)
Definition host_with_sidecar : host :=
  {| env_CHITIN_LIB_PATH := None;
     env_CHITIN_SIDECAR_URL := Some "http://localhost:8080/";
     platform_system := "Linux";
     isfile := fun _ => false;
     path_exists := fun _ => false;
     abspath := fun p => p;
     bundled_dir := "/site-packages/chitin/_lib/";
     cwd_release_dir := "/work/target/release/";
     sibling_release_dir := "/chitin-engine/target/release/";
     cdll := fun _ => None;
     missing_symbol := fun _ => false |}.



(** [t'] is [t] followed by calls that all satisfy [P]. *)
Definition extends_with (P : tcall -> bool) (t t' : list tcall) : Prop :=
  exists u, t' = t ++ u /\ forallb P u = true.

(** HTTP requests, as opposed to calls on the native library. *)
Definition is_http_call (c : tcall) : bool := negb (is_native_call c).

(** ** Releases of engine buffers, and statuses raised as errors *)

(** A [chitin_free_string] call that gives an address handed out by the
    engine back to it. *)
Definition releases_engine_pointer (c : tcall) : bool :=
  match c with
  | LibFreeString (EnginePointer _) _ => true
  | _ => false
  end.

Definition release_count (t : list tcall) : nat :=
  length (List.filter releases_engine_pointer t).


(** A host whose library loads but lacks a [chitin_*] symbol; a sidecar
    is configured. *)
Definition host_with_incomplete_library : host :=
  {| env_CHITIN_LIB_PATH := None;
     env_CHITIN_SIDECAR_URL := Some "http://localhost:8080";
     platform_system := "Linux";
     isfile := fun _ => false;
     path_exists := fun _ => false;
     abspath := fun p => p;
     bundled_dir := "/site-packages/chitin/_lib/";
     cwd_release_dir := "/work/target/release/";
     sibling_release_dir := "/chitin-engine/target/release/";
     cdll := fun _ => Some (stub_lib CHITIN_OK 1 (None, 0) (CHITIN_ERR_NOT_FOUND, None, 0));
     missing_symbol := fun _ => true |}.

(** * Properties *)

(** ** The trace monad *)

Lemma free_count_app (t u : list tcall) :
  free_count (t ++ u) = (free_count t + free_count u)%nat.
Proof. unfold free_count. rewrite List.filter_app, List.length_app. reflexivity. Qed.

Lemma free_count_snoc_lib (t : list tcall) (f : lib_fn) :
  free_count (t ++ [LibCall f]) = free_count t.
Proof. rewrite free_count_app. cbn. lia. Qed.

Lemma free_count_snoc_free (t : list tcall) (buf : out_buffer) (len : Z) :
  free_count (t ++ [freed_copy buf len]) = S (free_count t).
Proof. rewrite free_count_app. cbn. lia. Qed.

Lemma bind_ret_run {A B} (m : M A) (k : A -> M B) (t t' : list tcall) (a : A) :
  m t = (Ret a, t') -> bind m k t = k a t'.
Proof. intros H. unfold bind. rewrite H. reflexivity. Qed.

Lemma bind_raise_run {A B} (m : M A) (k : A -> M B) (t t' : list tcall) (e : exn) :
  m t = (Raise e, t') -> bind m k t = (Raise e, t').
Proof. intros H. unfold bind. rewrite H. reflexivity. Qed.

Lemma emit_run (c : tcall) (t : list tcall) : emit c t = (Ret tt, t ++ [c]).
Proof. reflexivity. Qed.

(** ** Native adapter: the last-error fetch *)

Section NativeFacts.
Variable utf8_valid : string -> bool.
Variable json_loads : string -> option pyval.
Variable json_dumps : pyval -> string.
Variable lib : native_lib.

(** What [_last_error] does, path by path. *)
Lemma last_error_run (t : list tcall) :
  FFI._last_error utf8_valid lib t =
  let t1 := t ++ [LibCall fn_last_error] in
  match chitin_last_error lib with
  | (_, None, _) => (Ret "unknown error", t1)
  | (st, Some buf, out_len) =>
      if Z.eqb st CHITIN_ERR_NOT_FOUND then (Ret "unknown error", t1)
      else (decode_utf8 utf8_valid (read_text buf out_len),
            t1 ++ [freed_copy buf out_len])
  end.
Proof.
  unfold FFI._last_error, bind. rewrite emit_run.
  destruct (chitin_last_error lib) as [[st out_json] out_len].
  destruct out_json as [buf|]; [|reflexivity].
  destruct (Z.eqb st CHITIN_ERR_NOT_FOUND); [reflexivity|].
  unfold try_finally, lift. rewrite emit_run. reflexivity.
Qed.

(** The fetch only ever appends to the trace. *)
Lemma last_error_extends (t : list tcall) :
  exists u, snd (FFI._last_error utf8_valid lib t) = t ++ u.
Proof.
  rewrite last_error_run. cbn zeta.
  destruct (chitin_last_error lib) as [[st out_json] out_len].
  destruct out_json as [buf|].
  - destruct (Z.eqb st CHITIN_ERR_NOT_FOUND); cbn.
    + eexists; reflexivity.
    + rewrite <- app_assoc. eexists; reflexivity.
  - eexists; reflexivity.
Qed.

(** For a buffer handed over by [chitin_last_error], one
    [chitin_free_string] call is made, on the copy, whether or not the
    text decodes. *)
Lemma last_error_frees_once (t : list tcall) (st : Z) (buf : out_buffer) (len : Z) :
  chitin_last_error lib = (st, Some buf, len) ->
  st <> CHITIN_ERR_NOT_FOUND ->
  FFI._last_error utf8_valid lib t =
    (decode_utf8 utf8_valid (read_text buf len),
     t ++ [LibCall fn_last_error; freed_copy buf len]).
Proof.
  intros Hle Hst. rewrite last_error_run, Hle. cbn zeta.
  apply Z.eqb_neq in Hst. rewrite Hst. rewrite <- app_assoc. reflexivity.
Qed.

(** Without a buffer there is nothing to release. *)
Lemma last_error_no_buffer (t : list tcall) (st : Z) (len : Z) :
  chitin_last_error lib = (st, None, len) ->
  FFI._last_error utf8_valid lib t =
    (Ret "unknown error", t ++ [LibCall fn_last_error]).
Proof. intros Hle. rewrite last_error_run, Hle. reflexivity. Qed.

(** [check_ok] on OK does nothing; otherwise it raises with the engine's
    status and the last-error text, unless fetching that text raises. *)
Lemma check_ok_ok (t : list tcall) :
  FFI.check_ok utf8_valid lib CHITIN_OK t = (Ret tt, t).
Proof. reflexivity. Qed.

Lemma check_ok_fail (st : Z) (t t' : list tcall) (msg : string) :
  st <> CHITIN_OK ->
  FFI._last_error utf8_valid lib t = (Ret msg, t') ->
  FFI.check_ok utf8_valid lib st t = (Raise (ChitinError (PInt st) (PStr msg)), t').
Proof.
  intros Hst Hle. unfold FFI.check_ok. apply Z.eqb_neq in Hst. rewrite Hst.
  unfold bind. rewrite Hle. reflexivity.
Qed.

Lemma check_ok_fail_raise (st : Z) (t t' : list tcall) (e : exn) :
  st <> CHITIN_OK ->
  FFI._last_error utf8_valid lib t = (Raise e, t') ->
  FFI.check_ok utf8_valid lib st t = (Raise e, t').
Proof.
  intros Hst Hle. unfold FFI.check_ok. apply Z.eqb_neq in Hst. rewrite Hst.
  unfold bind. rewrite Hle. reflexivity.
Qed.

(** ** Native adapter: propose *)

Lemma verdict_fields_object (err_json : string) (obj : gmap string pyval) :
  json_loads err_json = Some (PDict obj) ->
  FFI.verdict_fields json_loads err_json =
    (dict_get obj "rule_id", dict_get_default obj "reason" (PStr "")).
Proof. intros H. unfold FFI.verdict_fields. rewrite H. reflexivity. Qed.

Lemma verdict_fields_unparsed (err_json : string) :
  json_loads err_json = None ->
  FFI.verdict_fields json_loads err_json = (PNone, PStr err_json).
Proof. intros H. unfold FFI.verdict_fields. rewrite H. reflexivity. Qed.

Lemma propose_run (engine : Z) (tool params : string) (agent_id : option string)
    (input_sources : option (list Z)) (t : list tcall) :
  FFI.propose utf8_valid json_loads lib engine tool params agent_id input_sources t =
  let t1 := t ++ [LibCall fn_propose] in
  let '(st, out_id) := FFI.propose_call lib engine tool params agent_id input_sources in
  if Z.eqb st CHITIN_OK then
    (Ret (mkDecision true (PStr "allow") out_id PNone PNone), t1)
  else
    match FFI._last_error utf8_valid lib t1 with
    | (Raise e, t2) => (Raise e, t2)
    | (Ret err, t2) =>
        if Z.eqb st CHITIN_ERR_DENIED || Z.eqb st CHITIN_ERR_ESCALATED then
          (Ret (mkDecision false
                  (PStr (if Z.eqb st CHITIN_ERR_DENIED then "deny" else "escalate"))
                  out_id
                  (fst (FFI.verdict_fields json_loads err))
                  (snd (FFI.verdict_fields json_loads err))), t2)
        else (Raise (ChitinError (PInt st) (PStr err)), t2)
    end.
Proof.
  unfold FFI.propose, bind. rewrite emit_run. cbn zeta.
  destruct (FFI.propose_call lib engine tool params agent_id input_sources) as [st out_id].
  destruct (Z.eqb st CHITIN_OK); [reflexivity|].
  destruct (Z.eqb st CHITIN_ERR_DENIED || Z.eqb st CHITIN_ERR_ESCALATED).
  - destruct (FFI._last_error utf8_valid lib (t ++ [LibCall fn_propose])) as [[err|e] t2];
      [|reflexivity].
    destruct (FFI.verdict_fields json_loads err); reflexivity.
  - destruct (FFI._last_error utf8_valid lib (t ++ [LibCall fn_propose])) as [[err|e] t2];
      reflexivity.
Qed.

(** ** Native adapter: explain *)

Lemma explain_run (engine event_id : Z) (t : list tcall) :
  FFI.explain utf8_valid json_loads lib engine event_id t =
  let t1 := t ++ [LibCall fn_explain] in
  let '(st, out_json, out_len) := chitin_explain lib engine (c_uint64 event_id) in
  match FFI.check_ok utf8_valid lib st t1 with
  | (Raise e, t2) => (Raise e, t2)
  | (Ret _, t2) =>
      match out_json with
      | None => (Ret (mkExplainResult (PStr "") (PList [])), t2)
      | Some buf =>
          if Z.eqb out_len 0 then (Ret (mkExplainResult (PStr "") (PList [])), t2)
          else
            let t3 := t2 ++ [freed_copy buf out_len] in
            match decode_utf8 utf8_valid (read_text buf out_len) with
            | Raise e => (Raise e, t3)
            | Ret text =>
                match json_loads text with
                | Some (PDict obj) =>
                    (Ret (mkExplainResult
                            (dict_get_default obj "text" (PStr ""))
                            (dict_get_default obj "trace_chain" (PList []))), t3)
                | _ => (Ret (mkExplainResult (PStr text) (PList [])), t3)
                end
            end
      end
  end.
Proof.
  unfold read_text, freed_copy, FFI.explain, bind. rewrite emit_run. cbn zeta.
  destruct (chitin_explain lib engine (c_uint64 event_id)) as [[st out_json] out_len].
  destruct (FFI.check_ok utf8_valid lib st (t ++ [LibCall fn_explain])) as [[[]|e] t2];
    [|reflexivity].
  destruct out_json as [buf|]; [|reflexivity].
  destruct (Z.eqb out_len 0); [reflexivity|].
  unfold try_finally, lift. rewrite emit_run.
  destruct (decode_utf8 utf8_valid
              (string_at (c_char_p_value buf) (py_after buf) out_len)) as [text|e];
    [|reflexivity].
  destruct (json_loads text) as [[| | | | |obj]|]; reflexivity.
Qed.

(** For a payload handed over by a successful [chitin_explain], one
    [chitin_free_string] call is made, on the copy, whatever decoding and
    parsing do. *)
Lemma explain_frees_once (engine event_id : Z) (t : list tcall)
    (buf : out_buffer) (len : Z) :
  chitin_explain lib engine (c_uint64 event_id) = (CHITIN_OK, Some buf, len) ->
  len <> 0 ->
  snd (FFI.explain utf8_valid json_loads lib engine event_id t) =
    t ++ [LibCall fn_explain; freed_copy buf len].
Proof.
  intros Hex Hlen. rewrite explain_run, Hex. cbn zeta.
  rewrite check_ok_ok. apply Z.eqb_neq in Hlen. rewrite Hlen.
  rewrite <- app_assoc. cbn [app].
  destruct (decode_utf8 utf8_valid (read_text buf len)) as [text|e]; [|reflexivity].
  destruct (json_loads text) as [[| | | | |obj]|]; reflexivity.
Qed.

Lemma explain_decode_failure (engine event_id : Z) (t : list tcall)
    (buf : out_buffer) (len : Z) :
  chitin_explain lib engine (c_uint64 event_id) = (CHITIN_OK, Some buf, len) ->
  len <> 0 ->
  utf8_valid (read_text buf len) = false ->
  FFI.explain utf8_valid json_loads lib engine event_id t =
    (Raise UnicodeDecodeError, t ++ [LibCall fn_explain; freed_copy buf len]).
Proof.
  intros Hex Hlen Hbad. rewrite explain_run, Hex. cbn zeta.
  rewrite check_ok_ok. apply Z.eqb_neq in Hlen. rewrite Hlen.
  unfold decode_utf8. rewrite Hbad. rewrite <- app_assoc. reflexivity.
Qed.

End NativeFacts.

(** Native propose, by status, once the last-error text is fetched.  On
    OK the Decision is [allowed=True, outcome="allow"] with the
    out-parameter event id and no rule id or reason.  On DENIED (resp.
    ESCALATED) the Decision is [allowed=False, outcome="deny"] (resp.
    ["escalate"]) with the rule id and reason read from the error text
    when it parses as a JSON object, and [rule_id=None] with the raw text
    as reason when it does not parse.  Every other status raises
    [ChitinError] with that status and the last-error text. *)
Lemma ffi_propose_by_status
    (utf8_valid : string -> bool) (json_loads : string -> option pyval)
    (lib : native_lib) (engine : Z) (tool params : string)
    (agent_id : option string) (input_sources : option (list Z))
    (st out_id : Z) (t : list tcall) :
  FFI.propose_call lib engine tool params agent_id input_sources = (st, out_id) ->
  let run := FFI.propose utf8_valid json_loads lib engine tool params agent_id
               input_sources t in
  let t1 := t ++ [LibCall fn_propose] in
  (st = CHITIN_OK ->
     run = (Ret (mkDecision true (PStr "allow") out_id PNone PNone), t1))
  /\ (forall err_json t2,
        FFI._last_error utf8_valid lib t1 = (Ret err_json, t2) ->
        (st = CHITIN_ERR_DENIED ->
           run = (Ret (mkDecision false (PStr "deny") out_id
                         (fst (FFI.verdict_fields json_loads err_json))
                         (snd (FFI.verdict_fields json_loads err_json))), t2))
        /\ (st = CHITIN_ERR_ESCALATED ->
              run = (Ret (mkDecision false (PStr "escalate") out_id
                            (fst (FFI.verdict_fields json_loads err_json))
                            (snd (FFI.verdict_fields json_loads err_json))), t2))
        /\ (st <> CHITIN_OK -> st <> CHITIN_ERR_DENIED -> st <> CHITIN_ERR_ESCALATED ->
              run = (Raise (ChitinError (PInt st) (PStr err_json)), t2))
        /\ (forall obj, json_loads err_json = Some (PDict obj) ->
              FFI.verdict_fields json_loads err_json =
                (dict_get obj "rule_id", dict_get_default obj "reason" (PStr "")))
        /\ (json_loads err_json = None ->
              FFI.verdict_fields json_loads err_json = (PNone, PStr err_json))).
Proof.
  intros Hcall run t1. subst run t1. rewrite propose_run, Hcall. cbn zeta.
  split.
  - intros ->. reflexivity.
  - intros err_json t2 Hle. rewrite Hle.
    repeat split.
    + intros ->. reflexivity.
    + intros ->. reflexivity.
    + intros H0 H2 H3.
      apply Z.eqb_neq in H0, H2, H3. rewrite H0, H2, H3. reflexivity.
    + apply verdict_fields_object.
    + apply verdict_fields_unparsed.
Qed.

(** C4, where it fails.  On DENIED or ESCALATED the last error is
    fetched before the [try] that guards the parsing: when the engine's
    last-error text is not valid UTF-8, propose raises UnicodeDecodeError
    instead of returning a deny or escalate Decision with the raw text as
    reason. *)
Theorem ffi_propose_undecodable_last_error
    (utf8_valid : string -> bool) (json_loads : string -> option pyval)
    (lib : native_lib) (engine : Z) (tool params : string)
    (agent_id : option string) (input_sources : option (list Z))
    (st out_id st_err : Z) (buf : out_buffer) (len : Z) (t : list tcall) :
  FFI.propose_call lib engine tool params agent_id input_sources = (st, out_id) ->
  st = CHITIN_ERR_DENIED \/ st = CHITIN_ERR_ESCALATED ->
  chitin_last_error lib = (st_err, Some buf, len) ->
  st_err <> CHITIN_ERR_NOT_FOUND ->
  utf8_valid (read_text buf len) = false ->
  FFI.propose utf8_valid json_loads lib engine tool params agent_id input_sources t
    = (Raise UnicodeDecodeError,
       t ++ [LibCall fn_propose; LibCall fn_last_error; freed_copy buf len]).
Proof.
  intros Hcall Hst Hle Hne Hbad. rewrite propose_run, Hcall. cbn zeta.
  assert (E0 : Z.eqb st CHITIN_OK = false)
    by (destruct Hst as [-> | ->]; reflexivity).
  rewrite E0.
  rewrite (last_error_frees_once utf8_valid lib _ st_err buf len Hle Hne).
  unfold decode_utf8. rewrite Hbad. rewrite <- app_assoc. reflexivity.
Qed.

Lemma ffi_propose_undecodable_last_error_witness :
  FFI.propose ascii_only sample_json_loads
    (stub_lib CHITIN_ERR_DENIED 7 (None, 0)
       (CHITIN_OK, Some (engine_buffer bad_utf8), 1))
    1 "noop" "{}" None (Some [3]) []
  = (Raise UnicodeDecodeError,
     [LibCall fn_propose; LibCall fn_last_error;
      LibFreeString (BytesObject bad_utf8) 1]).
Proof.
  apply (ffi_propose_undecodable_last_error ascii_only sample_json_loads
           (stub_lib CHITIN_ERR_DENIED 7 (None, 0)
              (CHITIN_OK, Some (engine_buffer bad_utf8), 1))
           1 "noop" "{}" None (Some [3]) CHITIN_ERR_DENIED 7 CHITIN_OK
           (engine_buffer bad_utf8) 1 []); try reflexivity.
  - left. reflexivity.
  - discriminate.
Defined.

(** ** Native adapter: what is released *)

Lemma release_count_app (t u : list tcall) :
  release_count (t ++ u) = (release_count t + release_count u)%nat.
Proof. unfold release_count. rewrite List.filter_app, List.length_app. reflexivity. Qed.

Lemma release_count_snoc (t : list tcall) (c : tcall) :
  releases_engine_pointer c = false -> release_count (t ++ [c]) = release_count t.
Proof. intros H. rewrite release_count_app. unfold release_count. cbn. rewrite H. cbn. lia. Qed.

Lemma last_error_releases_nothing (utf8_valid : string -> bool) (lib : native_lib)
    (t : list tcall) :
  release_count (snd (FFI._last_error utf8_valid lib t)) = release_count t.
Proof.
  rewrite last_error_run. cbn zeta.
  destruct (chitin_last_error lib) as [[st out_json] out_len].
  destruct out_json as [buf|].
  - destruct (Z.eqb st CHITIN_ERR_NOT_FOUND); cbn [snd].
    + apply release_count_snoc. reflexivity.
    + rewrite !release_count_snoc by reflexivity. reflexivity.
  - apply release_count_snoc. reflexivity.
Qed.

Lemma check_ok_releases_nothing (utf8_valid : string -> bool) (lib : native_lib)
    (st : Z) (t : list tcall) :
  release_count (snd (FFI.check_ok utf8_valid lib st t)) = release_count t.
Proof.
  unfold FFI.check_ok. destruct (Z.eqb st CHITIN_OK); [reflexivity|].
  unfold bind. pose proof (last_error_releases_nothing utf8_valid lib t) as H.
  destruct (FFI._last_error utf8_valid lib t) as [[msg|x] t']; exact H.
Qed.

Lemma explain_releases_nothing (utf8_valid : string -> bool)
    (json_loads : string -> option pyval) (lib : native_lib) (engine ev : Z)
    (t : list tcall) :
  release_count (snd (FFI.explain utf8_valid json_loads lib engine ev t))
    = release_count t.
Proof.
  rewrite explain_run. cbn zeta.
  destruct (chitin_explain lib engine (c_uint64 ev)) as [[st out_json] out_len].
  pose proof (check_ok_releases_nothing utf8_valid lib st (t ++ [LibCall fn_explain])) as H.
  rewrite release_count_snoc in H by reflexivity.
  destruct (FFI.check_ok utf8_valid lib st (t ++ [LibCall fn_explain])) as [[[]|x] t2];
    cbn [snd] in H |- *; [|exact H].
  destruct out_json as [buf|]; [|exact H].
  destruct (Z.eqb out_len 0); [exact H|].
  assert (Hf : release_count (t2 ++ [freed_copy buf out_len]) = release_count t)
    by (rewrite release_count_snoc by reflexivity; exact H).
  destruct (decode_utf8 utf8_valid (read_text buf out_len)) as [txt|x]; [|exact Hf].
  destruct (json_loads txt) as [[| | | | |obj]|]; exact Hf.
Qed.

(** C9, where it fails.  The adapter never hands an address received
    from the engine back to [chitin_free_string]: on the paths that
    release at all, the one call made passes [out_json.value], a bytes
    copy with storage of its own, so the buffer the engine allocated
    stays allocated; this holds for the last-error fetch and for explain,
    whether decoding succeeds or raises. *)
Theorem engine_buffers_never_released
    (utf8_valid : string -> bool) (json_loads : string -> option pyval)
    (lib : native_lib) (t : list tcall) :
  release_count (snd (FFI._last_error utf8_valid lib t)) = release_count t
  /\ (forall engine ev,
      release_count (snd (FFI.explain utf8_valid json_loads lib engine ev t))
        = release_count t)
  /\ (forall st buf len,
      chitin_last_error lib = (st, Some buf, len) ->
      st <> CHITIN_ERR_NOT_FOUND ->
      snd (FFI._last_error utf8_valid lib t)
        = t ++ [LibCall fn_last_error;
                LibFreeString (BytesObject (c_char_p_value buf)) len])
  /\ (forall engine ev buf len,
      chitin_explain lib engine (c_uint64 ev) = (CHITIN_OK, Some buf, len) ->
      len <> 0 ->
      snd (FFI.explain utf8_valid json_loads lib engine ev t)
        = t ++ [LibCall fn_explain;
                LibFreeString (BytesObject (c_char_p_value buf)) len]).
Proof.
  split; [apply last_error_releases_nothing|].
  split; [intros; apply explain_releases_nothing|].
  split.
  - intros st buf len Hle Hst.
    rewrite (last_error_frees_once utf8_valid lib t st buf len Hle Hst). reflexivity.
  - intros engine ev buf len Hex Hlen.
    apply (explain_frees_once utf8_valid json_loads lib engine ev t buf len Hex Hlen).
Qed.

(** The failing input: explain receives the two-byte payload [{}] at
    address 4096; the only release call passes the copy. *)
Lemma engine_buffers_never_released_witness :
  FFI.explain ascii_only sample_json_loads
    (stub_lib CHITIN_OK 0 (Some (engine_buffer "{}"), 2) (CHITIN_ERR_NOT_FOUND, None, 0))
    1 5 []
  = (Ret (mkExplainResult (PStr "") (PList [])),
     [LibCall fn_explain; LibFreeString (BytesObject "{}") 2])
  /\ release_count
       (snd (FFI.explain ascii_only sample_json_loads
               (stub_lib CHITIN_OK 0 (Some (engine_buffer "{}"), 2)
                  (CHITIN_ERR_NOT_FOUND, None, 0)) 1 5 [])) = 0%nat.
Proof.
  split; [reflexivity|].
  exact (proj1 (proj2 (engine_buffers_never_released ascii_only sample_json_loads
                  (stub_lib CHITIN_OK 0 (Some (engine_buffer "{}"), 2)
                     (CHITIN_ERR_NOT_FOUND, None, 0)) [])) 1 5).
Defined.

(** Two paths on which a received buffer meets no release call at all: a
    last-error buffer that comes with NOT_FOUND, and a non-NULL explain
    payload of length zero. *)
Example last_error_buffer_with_not_found :
  FFI._last_error ascii_only
    (stub_lib CHITIN_ERR_INVALID 0 (None, 0)
       (CHITIN_ERR_NOT_FOUND, Some (engine_buffer "stale"), 5)) []
  = (Ret "unknown error", [LibCall fn_last_error]).
Proof. reflexivity. Qed.

Example explain_empty_payload_not_freed :
  FFI.explain ascii_only sample_json_loads
    (stub_lib CHITIN_OK 0 (Some (engine_buffer ""), 0) (CHITIN_ERR_NOT_FOUND, None, 0))
    1 5 []
  = (Ret (mkExplainResult (PStr "") (PList [])), [LibCall fn_explain]).
Proof. reflexivity. Qed.

(** ** The session *)

Section SessionFacts.
Variable utf8_valid : string -> bool.
Variable json_loads : string -> option pyval.
Variable json_dumps : pyval -> string.
Variable int_of_str : string -> option Z.
Variable sidecar : string -> gmap string pyval -> http_reply.

Lemma close_backend_none (e e' : engine) (t t' : list tcall) :
  Engine.close e t = (Ret e', t') -> _backend e' = backend_none.
Proof.
  unfold Engine.close.
  destruct (_backend e), (_ffi e), (_handle e); cbn; intros H; inversion H; reflexivity.
Qed.

(** Closing a native session frees the engine handle once; closing a
    session that is already closed touches no transport. *)
Lemma close_native (l : native_lib) (h : Z) (t : list tcall) :
  Engine.close (mkEngine backend_ffi (Some l) (Some h) None) t =
    (Ret (mkEngine backend_none None None None), t ++ [LibCall fn_engine_free]).
Proof. reflexivity. Qed.

Lemma close_closed (e : engine) (t : list tcall) :
  _backend e = backend_none ->
  exists e', Engine.close e t = (Ret e', t) /\ _backend e' = backend_none.
Proof.
  intros H. unfold Engine.close. rewrite H.
  destruct (_ffi e), (_handle e); eexists; split; reflexivity.
Qed.

Lemma dispatch_closed {A} (e : engine) (native : native_lib -> Z -> M A)
    (rpc : string -> M A) (t : list tcall) :
  _backend e = backend_none ->
  Engine.dispatch e native rpc t = (Raise Engine.closed_error, t).
Proof.
  intros H. unfold Engine.dispatch, Engine._ensure_open, bind. rewrite H. reflexivity.
Qed.

Lemma dispatch_native {A} (e : engine) (l : native_lib) (native : native_lib -> Z -> M A)
    (rpc : string -> M A) (t : list tcall) :
  _backend e = backend_ffi -> _ffi e = Some l ->
  Engine.dispatch e native rpc t = native l (handle_arg (_handle e)) t.
Proof.
  intros H1 H2. unfold Engine.dispatch, Engine._ensure_open, bind.
  rewrite H1, H2. reflexivity.
Qed.

Lemma dispatch_rpc {A} (e : engine) (url : string) (native : native_lib -> Z -> M A)
    (rpc : string -> M A) (t : list tcall) :
  _backend e = backend_http -> _http e = Some url ->
  Engine.dispatch e native rpc t = rpc url t.
Proof.
  intros H1 H2. unfold Engine.dispatch, Engine._ensure_open, bind.
  rewrite H1, H2. reflexivity.
Qed.

End SessionFacts.

(** C5. After [close], every operation raises
    [ChitinError(-1, "Engine is closed")] and leaves the trace of
    transport calls unchanged, whichever transport the session had. *)
Theorem closed_session_rejects_every_operation
    (utf8_valid : string -> bool) (json_loads : string -> option pyval)
    (json_dumps : pyval -> string) (int_of_str : string -> option Z)
    (sidecar : string -> gmap string pyval -> http_reply)
    (e e' : engine) (t0 t1 : list tcall) :
  Engine.close e t0 = (Ret e', t1) ->
  forall t : list tcall,
    (forall content trust_level metadata,
        Engine.ingest utf8_valid json_loads json_dumps int_of_str sidecar e'
          content trust_level metadata t = (Raise Engine.closed_error, t))
    /\ (forall tool params agent_id input_sources,
        Engine.propose utf8_valid json_loads int_of_str sidecar e'
          tool params agent_id input_sources t = (Raise Engine.closed_error, t))
    /\ (forall tool_call_id output exit_code,
        Engine.record_result utf8_valid json_loads int_of_str sidecar e'
          tool_call_id output exit_code t = (Raise Engine.closed_error, t))
    /\ (forall event_id label,
        Engine.is_traced utf8_valid json_loads sidecar e' event_id label t =
          (Raise Engine.closed_error, t))
    /\ (forall event_id label,
        Engine.set_label e' event_id label t = (Raise Engine.closed_error, t))
    /\ (forall event_id,
        Engine.explain utf8_valid json_loads sidecar e' event_id t =
          (Raise Engine.closed_error, t))
    /\ (forall name risk category,
        Engine.register_tool utf8_valid json_loads json_dumps sidecar e'
          name risk category t = (Raise Engine.closed_error, t))
    /\ Engine.closed_error = ChitinError (PInt (-1)) (PStr "Engine is closed").
Proof.
  intros Hclose t. apply close_backend_none in Hclose.
  repeat split; intros; apply dispatch_closed; assumption.
Qed.

Lemma closed_session_rejects_every_operation_witness :
  Engine.close (mkEngine backend_ffi
                  (Some (stub_lib CHITIN_OK 1 (None, 0) (CHITIN_OK, None, 0)))
                  (Some 1) None) [] =
    (Ret (mkEngine backend_none None None None), [LibCall fn_engine_free])
  /\ Engine.propose ascii_only sample_json_loads int_of_str_stub
       (stub_sidecar (UrlError "unreachable"))
       (mkEngine backend_none None None None) "noop" "{}" None None
       [LibCall fn_engine_free] =
     (Raise (ChitinError (PInt (-1)) (PStr "Engine is closed")),
      [LibCall fn_engine_free]).
Proof.
  split; [reflexivity|].
  pose proof (closed_session_rejects_every_operation ascii_only sample_json_loads
                json_dumps_stub int_of_str_stub (stub_sidecar (UrlError "unreachable"))
                (mkEngine backend_ffi
                   (Some (stub_lib CHITIN_OK 1 (None, 0) (CHITIN_OK, None, 0)))
                   (Some 1) None)
                (mkEngine backend_none None None None)
                [] [LibCall fn_engine_free] eq_refl [LibCall fn_engine_free]) as H.
  destruct H as [_ [H _]]. apply H.
Defined.

(** ** Session construction *)

(** When the loader rejects the resolved path, the native attempt ends
    in the OSError of [_load_lib], before any library call. *)
Lemma try_ffi_load_failure (utf8_valid : string -> bool) (h : host)
    (config_path : option string) (t : list tcall) :
  cdll h (Resolve.resolve_chitin_lib h) = None ->
  Engine.try_ffi utf8_valid h config_path t =
    (Raise (OSError Resolve._load_lib_error_message), t).
Proof.
  intros H. unfold Engine.try_ffi, load_ffi, _load_lib, bind, lift.
  rewrite H. reflexivity.
Qed.

Lemma load_ffi_ok (h : host) (l : native_lib) :
  cdll h (Resolve.resolve_chitin_lib h) = Some l ->
  missing_symbol h (Resolve.resolve_chitin_lib h) = false ->
  load_ffi h = Ret l.
Proof.
  intros Hl Hsym. unfold load_ffi, _load_lib, _setup_signatures. rewrite Hl, Hsym.
  reflexivity.
Qed.

(** When the library loads but [chitin_engine_new] returns NULL, it ends
    in ChitinError(INTERNAL) carrying the last-error text. *)
Lemma try_ffi_construction_failure (utf8_valid : string -> bool) (h : host)
    (config_path : option string) (t t' : list tcall) (l : native_lib) (msg : string) :
  cdll h (Resolve.resolve_chitin_lib h) = Some l ->
  missing_symbol h (Resolve.resolve_chitin_lib h) = false ->
  chitin_engine_new l (fst (_to_buf config_path)) (snd (_to_buf config_path)) = None ->
  FFI._last_error utf8_valid l (t ++ [LibCall fn_engine_new]) = (Ret msg, t') ->
  Engine.try_ffi utf8_valid h config_path t =
    (Raise (ChitinError (PInt CHITIN_ERR_INTERNAL) (PStr msg)), t').
Proof.
  intros Hl Hsym Hnew Hle.
  unfold Engine.try_ffi, bind, lift. rewrite (load_ffi_ok h l Hl Hsym).
  unfold FFI.engine_new. destruct (_to_buf config_path) as [path_buf path_len].
  cbn [fst snd] in Hnew. unfold bind. rewrite emit_run, Hnew, Hle. reflexivity.
Qed.

(** The message of the discarded OSError names both remediation paths. *)
Lemma load_lib_message_names_both :
  contains "CHITIN_LIB_PATH" Resolve._load_lib_error_message = true
  /\ contains "CHITIN_SIDECAR_URL" Resolve._load_lib_error_message = true.
Proof. split; vm_compute; reflexivity. Qed.

(** C6, as stated, fails: on a host whose CHITIN_LIB_PATH names a file
    that is not a library and where CHITIN_SIDECAR_URL is unset, the
    constructor raises a ChitinError whose message does not name the
    library-path override. *)
Lemma init_message_omits_lib_path :
  Engine.__init__ ascii_only host_without_transports None [] =
    (Raise (ChitinError (PInt (-1))
              (PStr "Chitin engine unavailable: native library failed to load and CHITIN_SIDECAR_URL is not set.")),
     [])
  /\ contains "CHITIN_LIB_PATH"
       "Chitin engine unavailable: native library failed to load and CHITIN_SIDECAR_URL is not set."
     = false
  /\ contains "path"
       "Chitin engine unavailable: native library failed to load and CHITIN_SIDECAR_URL is not set."
     = false.
Proof. repeat split; vm_compute; reflexivity. Qed.

(** C6, amended.  When the native attempt ends in a ChitinError or an
    OSError and CHITIN_SIDECAR_URL is unset or empty, the constructor
    raises ChitinError(-1) with a fixed message that reports the native
    load failure and names CHITIN_SIDECAR_URL; CHITIN_LIB_PATH is named
    only by the OSError that was caught. *)
Theorem init_unavailable_names_sidecar_url
    (utf8_valid : string -> bool) (h : host) (config_path : option string)
    (t t' : list tcall) (x : exn) :
  Engine.try_ffi utf8_valid h config_path t = (Raise x, t') ->
  Engine.caught x = true ->
  env_CHITIN_SIDECAR_URL h = None \/ env_CHITIN_SIDECAR_URL h = Some "" ->
  Engine.__init__ utf8_valid h config_path t =
    (Raise (ChitinError (PInt (-1)) (PStr Engine.unavailable_message)), t')
  /\ contains "native library failed to load" Engine.unavailable_message = true
  /\ contains "CHITIN_SIDECAR_URL" Engine.unavailable_message = true
  /\ contains "CHITIN_LIB_PATH" Engine.unavailable_message = false.
Proof.
  intros Hffi Hcaught Hurl.
  assert (Hhttp : Engine.try_http h t' =
                  (Raise (ChitinError (PInt (-1)) (PStr Engine.unavailable_message)), t')).
  { unfold Engine.try_http. destruct Hurl as [-> | ->]; reflexivity. }
  split; [|repeat split; vm_compute; reflexivity].
  unfold Engine.__init__. rewrite Hffi.
  destruct x; cbn in Hcaught; try discriminate; exact Hhttp.
Qed.

Lemma init_unavailable_names_sidecar_url_witness :
  Engine.__init__ ascii_only host_without_transports None [] =
    (Raise (ChitinError (PInt (-1)) (PStr Engine.unavailable_message)), []).
Proof.
  refine (proj1 (init_unavailable_names_sidecar_url ascii_only host_without_transports
                   None [] [] (OSError Resolve._load_lib_error_message) _ _ _)).
  - apply try_ffi_load_failure. reflexivity.
  - reflexivity.
  - left. reflexivity.
Defined.

(** ** RPC adapter *)

Section RpcFacts.
Variable utf8_valid : string -> bool.
Variable json_loads : string -> option pyval.
Variable int_of_str : string -> option Z.
Variable sidecar : string -> gmap string pyval -> http_reply.
Variable base_url : string.

Local Abbreviation post := (HTTP._post utf8_valid json_loads sidecar base_url).
Local Abbreviation reply_to := (HTTP.reply_to sidecar base_url).
Local Abbreviation sent path body := (HttpPost (HTTP._base base_url ++ path)%string body).

(** [_post] calls [urlopen] once, unless the request cannot be built. *)
Lemma post_trace (path : string) (body : gmap string pyval) (t : list tcall) :
  snd (post path body t) = t ++ calls_for (reply_to path body) (sent path body).
Proof.
  unfold HTTP._post.
  destruct (HTTP.reply_to sidecar base_url path body) as [status raw|str_e raw|r| |c];
    unfold bind; rewrite ?emit_run; cbn [calls_for].
  - match goal with |- context [if ?c then _ else _] => destruct c end; [reflexivity|].
    unfold lift. destruct (decode_utf8 utf8_valid raw) as [s|e]; [|reflexivity].
    destruct (json_loads s); reflexivity.
  - unfold lift.
    match goal with |- context [as_dict ?p] => destruct (as_dict p) end; reflexivity.
  - reflexivity.
  - cbn. rewrite app_nil_r. reflexivity.
  - reflexivity.
Qed.

Lemma post_empty (path : string) (body : gmap string pyval) (t : list tcall) :
  empty_reply (reply_to path body) = true ->
  post path body t = (Ret (PDict ∅), t ++ [sent path body]).
Proof.
  intros H. unfold HTTP._post.
  destruct (HTTP.reply_to sidecar base_url path body) as [status raw|str_e raw|r| |c];
    unfold empty_reply in H; try discriminate.
  unfold bind. rewrite emit_run, H. reflexivity.
Qed.

Lemma post_2xx (path : string) (body : gmap string pyval) (t : list tcall)
    (status : Z) (raw : string) (v : pyval) :
  reply_to path body = Http2xx status raw ->
  empty_reply (Http2xx status raw) = false ->
  utf8_valid raw = true ->
  json_loads raw = Some v ->
  post path body t = (Ret v, t ++ [sent path body]).
Proof.
  intros Hr He Hu Hj. unfold HTTP._post. rewrite Hr. unfold bind. rewrite emit_run.
  unfold empty_reply in He. rewrite He. unfold lift, decode_utf8. rewrite Hu, Hj.
  reflexivity.
Qed.

(** Non-2xx with a JSON object body: status and message come from the
    body, with INTERNAL and [str(e)] as defaults. *)
Lemma post_error_object (path : string) (body : gmap string pyval) (t : list tcall)
    (str_e raw : string) (d : gmap string pyval) :
  reply_to path body = HttpError str_e raw ->
  utf8_valid raw = true ->
  json_loads raw = Some (PDict d) ->
  post path body t =
    (Raise (ChitinError (dict_get_default d "status" (PInt CHITIN_ERR_INTERNAL))
                        (dict_get_default d "error" (PStr str_e))),
     t ++ [sent path body]).
Proof.
  intros Hr Hu Hj. unfold HTTP._post. rewrite Hr. unfold bind. rewrite emit_run.
  unfold decode_utf8. rewrite Hu, Hj. reflexivity.
Qed.

(** Non-2xx with a body that is not UTF-8 or not JSON: INTERNAL. *)
Lemma post_error_undecodable (path : string) (body : gmap string pyval) (t : list tcall)
    (str_e raw : string) :
  reply_to path body = HttpError str_e raw ->
  utf8_valid raw = false \/ json_loads raw = None ->
  post path body t =
    (Raise (ChitinError (PInt CHITIN_ERR_INTERNAL) (PStr str_e)),
     t ++ [sent path body]).
Proof.
  intros Hr Hbad. unfold HTTP._post. rewrite Hr. unfold bind. rewrite emit_run.
  unfold decode_utf8.
  destruct (utf8_valid raw).
  - destruct Hbad as [Hbad|Hbad]; [discriminate|]. rewrite Hbad. reflexivity.
  - reflexivity.
Qed.

(** Non-2xx with a JSON body that is not an object: [payload.get] fails. *)
Lemma post_error_non_object (path : string) (body : gmap string pyval) (t : list tcall)
    (str_e raw : string) (v : pyval) :
  reply_to path body = HttpError str_e raw ->
  utf8_valid raw = true ->
  json_loads raw = Some v ->
  as_dict v = Raise AttributeError ->
  post path body t = (Raise AttributeError, t ++ [sent path body]).
Proof.
  intros Hr Hu Hj Hv. unfold HTTP._post. rewrite Hr. unfold bind. rewrite emit_run.
  unfold decode_utf8. rewrite Hu, Hj. unfold lift. rewrite Hv. reflexivity.
Qed.

(** No response at all: INTERNAL with the network error as message. *)
Lemma post_url_error (path : string) (body : gmap string pyval) (t : list tcall)
    (str_reason : string) :
  reply_to path body = UrlError str_reason ->
  post path body t =
    (Raise (ChitinError (PInt CHITIN_ERR_INTERNAL) (PStr str_reason)),
     t ++ [sent path body]).
Proof.
  intros Hr. unfold HTTP._post. rewrite Hr. unfold bind. rewrite emit_run. reflexivity.
Qed.

(** A [_post] that raises makes the operation raise the same exception. *)
Lemma ingest_post_raises content trust_level metadata t x t' :
  post "/ingest" (HTTP.ingest_body content trust_level metadata) t = (Raise x, t') ->
  HTTP.ingest utf8_valid json_loads int_of_str sidecar base_url
    content trust_level metadata t = (Raise x, t').
Proof. intros H. unfold HTTP.ingest. apply bind_raise_run. exact H. Qed.






(** What each operation does with the object [_post] returned. *)
Lemma ingest_on_object content trust_level metadata t d t' :
  post "/ingest" (HTTP.ingest_body content trust_level metadata) t = (Ret (PDict d), t') ->
  HTTP.ingest utf8_valid json_loads int_of_str sidecar base_url
    content trust_level metadata t =
  let status := dict_get_default d "status" (PInt CHITIN_OK) in
  if py_eq_int status CHITIN_OK then HTTP.int_event_id int_of_str d t'
  else (Raise (ChitinError status (dict_get_default d "error" (PStr "ingest failed"))), t').
Proof.
  intros H. unfold HTTP.ingest. rewrite (bind_ret_run _ _ _ _ _ H).
  cbn [as_dict lift bind]. cbn zeta.
  destruct (py_eq_int (dict_get_default d "status" (PInt CHITIN_OK)) CHITIN_OK); reflexivity.
Qed.

Lemma record_result_on_object tool_call_id output exit_code t d t' :
  post "/record_result" (HTTP.record_result_body tool_call_id output exit_code) t
    = (Ret (PDict d), t') ->
  HTTP.record_result utf8_valid json_loads int_of_str sidecar base_url
    tool_call_id output exit_code t =
  let status := dict_get_default d "status" (PInt CHITIN_OK) in
  if py_eq_int status CHITIN_OK then HTTP.int_event_id int_of_str d t'
  else (Raise (ChitinError status
                 (dict_get_default d "error" (PStr "record_result failed"))), t').
Proof.
  intros H. unfold HTTP.record_result. rewrite (bind_ret_run _ _ _ _ _ H).
  cbn [as_dict lift bind]. cbn zeta.
  destruct (py_eq_int (dict_get_default d "status" (PInt CHITIN_OK)) CHITIN_OK); reflexivity.
Qed.

Lemma is_traced_on_object event_id label t d t' :
  post "/is_traced" (HTTP.is_traced_body event_id label) t = (Ret (PDict d), t') ->
  HTTP.is_traced utf8_valid json_loads sidecar base_url event_id label t =
  if py_eq_int (dict_get d "status") CHITIN_OK
  then (Ret (py_bool (dict_get_default d "traced" (PBool false))), t')
  else (Raise (ChitinError (dict_get_default d "status" (PInt CHITIN_ERR_INTERNAL))
                           (dict_get_default d "error" (PStr "is_traced failed"))), t').
Proof.
  intros H. unfold HTTP.is_traced. rewrite (bind_ret_run _ _ _ _ _ H).
  cbn [as_dict lift bind].
  destruct (py_eq_int (dict_get d "status") CHITIN_OK); reflexivity.
Qed.

Lemma explain_on_object event_id t d t' :
  post "/explain" (HTTP.explain_body event_id) t = (Ret (PDict d), t') ->
  HTTP.explain utf8_valid json_loads sidecar base_url event_id t =
  let status := dict_get_default d "status" (PInt CHITIN_OK) in
  if py_eq_int status CHITIN_OK
  then (Ret (mkExplainResult (py_or (dict_get d "text") (PStr ""))
                             (py_or (dict_get d "trace_chain") (PList []))), t')
  else (Raise (ChitinError status (dict_get_default d "error" (PStr "explain failed"))), t').
Proof.
  intros H. unfold HTTP.explain. rewrite (bind_ret_run _ _ _ _ _ H).
  cbn [as_dict lift bind]. cbn zeta.
  destruct (py_eq_int (dict_get_default d "status" (PInt CHITIN_OK)) CHITIN_OK); reflexivity.
Qed.

Lemma propose_on_object tool params agent_id input_sources t d t' :
  post "/propose" (HTTP.propose_body tool params agent_id input_sources) t
    = (Ret (PDict d), t') ->
  HTTP.propose utf8_valid json_loads int_of_str sidecar base_url
    tool params agent_id input_sources t =
  match HTTP.int_event_id int_of_str d t' with
  | (Ret n, t2) =>
      (Ret (mkDecision (py_bool (dict_get_default d "allowed" (PBool false)))
                       (dict_get_default d "outcome" (PStr "deny")) n
                       (dict_get d "rule_id") (dict_get d "reason")), t2)
  | (Raise x, t2) => (Raise x, t2)
  end.
Proof.
  intros H. unfold HTTP.propose. rewrite (bind_ret_run _ _ _ _ _ H).
  cbn [as_dict lift bind]. cbn zeta. unfold bind.
  destruct (HTTP.int_event_id int_of_str d t') as [[n|x] t2]; reflexivity.
Qed.

Lemma register_tool_on_value name risk category t v t' :
  post "/register_tool" (HTTP.register_tool_body name risk category) t = (Ret v, t') ->
  HTTP.register_tool utf8_valid json_loads sidecar base_url name risk category t
    = (Ret tt, t').
Proof. intros H. unfold HTTP.register_tool. rewrite (bind_ret_run _ _ _ _ _ H). reflexivity. Qed.

Lemma int_event_id_missing (d : gmap string pyval) (t : list tcall) :
  d !! "event_id" = None ->
  HTTP.int_event_id int_of_str d t = (Raise (KeyError "event_id"), t).
Proof.
  intros H. unfold HTTP.int_event_id, dict_item, bind, lift. rewrite H. reflexivity.
Qed.

Lemma int_event_id_int (d : gmap string pyval) (n : Z) (t : list tcall) :
  d !! "event_id" = Some (PInt n) ->
  HTTP.int_event_id int_of_str d t = (Ret n, t).
Proof.
  intros H. unfold HTTP.int_event_id, dict_item, bind, lift. rewrite H. reflexivity.
Qed.

End RpcFacts.

(** C7, at the failing input.  A non-2xx response whose body is JSON but
    not an object (here [[]]) makes every operation raise AttributeError
    from [payload.get], not a ChitinError with status INTERNAL. *)
Theorem rpc_error_with_non_object_body :
  let sidecar := stub_sidecar (HttpError "HTTP Error 500: Internal Server Error" "[]") in
  let url := "http://localhost:8080" in
  fst (HTTP.ingest ascii_only sample_json_loads int_of_str_stub sidecar url
         "hi" TrustLevel.USER None []) = Raise AttributeError
  /\ fst (HTTP.propose ascii_only sample_json_loads int_of_str_stub sidecar url
            "noop" "{}" None None []) = Raise AttributeError
  /\ fst (HTTP.record_result ascii_only sample_json_loads int_of_str_stub sidecar url
            7 "ok" 0 []) = Raise AttributeError
  /\ fst (HTTP.is_traced ascii_only sample_json_loads sidecar url 7 "pii" [])
     = Raise AttributeError
  /\ fst (HTTP.explain ascii_only sample_json_loads sidecar url 7 [])
     = Raise AttributeError
  /\ fst (HTTP.register_tool ascii_only sample_json_loads sidecar url
            "noop" "high" None []) = Raise AttributeError.
Proof. cbn zeta. repeat split; vm_compute; reflexivity. Qed.

(** The error mapping of [_post] on every other reply: an object body
    gives its status and error fields (INTERNAL and [str(e)] when
    absent), an undecodable body gives INTERNAL, and no response gives
    INTERNAL with the network error as message. *)
Lemma rpc_error_mapping
    (utf8_valid : string -> bool) (json_loads : string -> option pyval)
    (sidecar : string -> gmap string pyval -> http_reply) (base_url path : string)
    (body : gmap string pyval) (t : list tcall) :
  (forall str_e raw d,
      HTTP.reply_to sidecar base_url path body = HttpError str_e raw ->
      utf8_valid raw = true -> json_loads raw = Some (PDict d) ->
      fst (HTTP._post utf8_valid json_loads sidecar base_url path body t) =
        Raise (ChitinError (dict_get_default d "status" (PInt CHITIN_ERR_INTERNAL))
                           (dict_get_default d "error" (PStr str_e))))
  /\ (forall str_e raw,
      HTTP.reply_to sidecar base_url path body = HttpError str_e raw ->
      utf8_valid raw = false \/ json_loads raw = None ->
      fst (HTTP._post utf8_valid json_loads sidecar base_url path body t) =
        Raise (ChitinError (PInt CHITIN_ERR_INTERNAL) (PStr str_e)))
  /\ (forall str_reason,
      HTTP.reply_to sidecar base_url path body = UrlError str_reason ->
      fst (HTTP._post utf8_valid json_loads sidecar base_url path body t) =
        Raise (ChitinError (PInt CHITIN_ERR_INTERNAL) (PStr str_reason))).
Proof.
  repeat split.
  - intros str_e raw d Hr Hu Hj.
    rewrite (post_error_object _ _ _ _ _ _ t _ _ _ Hr Hu Hj). reflexivity.
  - intros str_e raw Hr Hbad.
    rewrite (post_error_undecodable _ _ _ _ _ _ t _ _ Hr Hbad). reflexivity.
  - intros str_reason Hr.
    rewrite (post_url_error _ _ _ _ _ _ t _ Hr). reflexivity.
Qed.

(** C8, as stated, fails for explain: an empty 200 response is turned
    into an empty ExplainResult. *)
Lemma rpc_explain_accepts_empty_body :
  fst (HTTP.explain ascii_only sample_json_loads (stub_sidecar (Http2xx 200 ""))
         "http://localhost:8080" 5 [])
  = Ret (mkExplainResult (PStr "") (PList [])).
Proof. vm_compute. reflexivity. Qed.

(** C8, amended.  On a 2xx response that is 204 or has an empty body,
    register_tool returns, explain returns the empty ExplainResult,
    ingest, propose and record_result raise KeyError for the missing
    [event_id], and is_traced raises ChitinError(INTERNAL). *)
Theorem rpc_empty_body_by_operation
    (utf8_valid : string -> bool) (json_loads : string -> option pyval)
    (int_of_str : string -> option Z)
    (sidecar : string -> gmap string pyval -> http_reply) (base_url : string)
    (t : list tcall) :
  (forall name risk category,
      empty_reply (HTTP.reply_to sidecar base_url "/register_tool"
                     (HTTP.register_tool_body name risk category)) = true ->
      fst (HTTP.register_tool utf8_valid json_loads sidecar base_url
             name risk category t) = Ret tt)
  /\ (forall event_id,
      empty_reply (HTTP.reply_to sidecar base_url "/explain"
                     (HTTP.explain_body event_id)) = true ->
      fst (HTTP.explain utf8_valid json_loads sidecar base_url event_id t) =
        Ret (mkExplainResult (PStr "") (PList [])))
  /\ (forall content trust_level metadata,
      empty_reply (HTTP.reply_to sidecar base_url "/ingest"
                     (HTTP.ingest_body content trust_level metadata)) = true ->
      fst (HTTP.ingest utf8_valid json_loads int_of_str sidecar base_url
             content trust_level metadata t) = Raise (KeyError "event_id"))
  /\ (forall tool params agent_id input_sources,
      empty_reply (HTTP.reply_to sidecar base_url "/propose"
                     (HTTP.propose_body tool params agent_id input_sources)) = true ->
      fst (HTTP.propose utf8_valid json_loads int_of_str sidecar base_url
             tool params agent_id input_sources t) = Raise (KeyError "event_id"))
  /\ (forall tool_call_id output exit_code,
      empty_reply (HTTP.reply_to sidecar base_url "/record_result"
                     (HTTP.record_result_body tool_call_id output exit_code)) = true ->
      fst (HTTP.record_result utf8_valid json_loads int_of_str sidecar base_url
             tool_call_id output exit_code t) = Raise (KeyError "event_id"))
  /\ (forall event_id label,
      empty_reply (HTTP.reply_to sidecar base_url "/is_traced"
                     (HTTP.is_traced_body event_id label)) = true ->
      fst (HTTP.is_traced utf8_valid json_loads sidecar base_url event_id label t) =
        Raise (ChitinError (PInt CHITIN_ERR_INTERNAL) (PStr "is_traced failed"))).
Proof.
  repeat split.
  - intros name risk category H.
    rewrite (register_tool_on_value _ _ _ _ _ _ _ _ _ _ (post_empty _ _ _ _ _ _ t H)).
    reflexivity.
  - intros event_id H.
    rewrite (explain_on_object _ _ _ _ _ _ _ _ (post_empty _ _ _ _ _ _ t H)).
    reflexivity.
  - intros content trust_level metadata H.
    rewrite (ingest_on_object _ _ _ _ _ _ _ _ _ _ _ (post_empty _ _ _ _ _ _ t H)).
    reflexivity.
  - intros tool params agent_id input_sources H.
    rewrite (propose_on_object _ _ _ _ _ _ _ _ _ _ _ _ (post_empty _ _ _ _ _ _ t H)).
    reflexivity.
  - intros tool_call_id output exit_code H.
    rewrite (record_result_on_object _ _ _ _ _ _ _ _ _ _ _ (post_empty _ _ _ _ _ _ t H)).
    reflexivity.
  - intros event_id label H.
    rewrite (is_traced_on_object _ _ _ _ _ _ _ _ _ (post_empty _ _ _ _ _ _ t H)).
    reflexivity.
Qed.

Lemma rpc_empty_body_by_operation_witness :
  fst (HTTP.ingest ascii_only sample_json_loads int_of_str_stub
         (stub_sidecar (Http2xx 204 "")) "http://localhost:8080/"
         "hi" TrustLevel.USER None []) = Raise (KeyError "event_id").
Proof.
  pose proof (rpc_empty_body_by_operation ascii_only sample_json_loads int_of_str_stub
                (stub_sidecar (Http2xx 204 "")) "http://localhost:8080/" [])
    as [_ [_ [H _]]].
  apply H. reflexivity.
Defined.

(** C10. Over RPC, is_traced raises a ChitinError whenever the returned
    object has no status equal to OK, with status INTERNAL when the field
    is missing; ingest, record_result and explain take a missing status
    as OK and go on to read the result fields. *)
Theorem rpc_missing_status_handling
    (utf8_valid : string -> bool) (json_loads : string -> option pyval)
    (int_of_str : string -> option Z)
    (sidecar : string -> gmap string pyval -> http_reply) (base_url : string)
    (d : gmap string pyval) (t t' : list tcall) :
  (forall event_id label,
      HTTP._post utf8_valid json_loads sidecar base_url "/is_traced"
        (HTTP.is_traced_body event_id label) t = (Ret (PDict d), t') ->
      py_eq_int (dict_get d "status") CHITIN_OK = false ->
      HTTP.is_traced utf8_valid json_loads sidecar base_url event_id label t =
        (Raise (ChitinError (dict_get_default d "status" (PInt CHITIN_ERR_INTERNAL))
                            (dict_get_default d "error" (PStr "is_traced failed"))), t'))
  /\ (d !! "status" = None ->
      py_eq_int (dict_get d "status") CHITIN_OK = false
      /\ dict_get_default d "status" (PInt CHITIN_ERR_INTERNAL) = PInt CHITIN_ERR_INTERNAL)
  /\ (forall content trust_level metadata,
      HTTP._post utf8_valid json_loads sidecar base_url "/ingest"
        (HTTP.ingest_body content trust_level metadata) t = (Ret (PDict d), t') ->
      d !! "status" = None ->
      HTTP.ingest utf8_valid json_loads int_of_str sidecar base_url
        content trust_level metadata t = HTTP.int_event_id int_of_str d t')
  /\ (forall tool_call_id output exit_code,
      HTTP._post utf8_valid json_loads sidecar base_url "/record_result"
        (HTTP.record_result_body tool_call_id output exit_code) t = (Ret (PDict d), t') ->
      d !! "status" = None ->
      HTTP.record_result utf8_valid json_loads int_of_str sidecar base_url
        tool_call_id output exit_code t = HTTP.int_event_id int_of_str d t')
  /\ (forall event_id,
      HTTP._post utf8_valid json_loads sidecar base_url "/explain"
        (HTTP.explain_body event_id) t = (Ret (PDict d), t') ->
      d !! "status" = None ->
      HTTP.explain utf8_valid json_loads sidecar base_url event_id t =
        (Ret (mkExplainResult (py_or (dict_get d "text") (PStr ""))
                              (py_or (dict_get d "trace_chain") (PList []))), t')).
Proof.
  repeat split.
  - intros event_id label Hpost Hst.
    rewrite (is_traced_on_object _ _ _ _ _ _ _ _ _ Hpost), Hst. reflexivity.
  - unfold dict_get. rewrite H. reflexivity.
  - unfold dict_get_default. rewrite H. reflexivity.
  - intros content trust_level metadata Hpost Hst.
    rewrite (ingest_on_object _ _ _ _ _ _ _ _ _ _ _ Hpost).
    unfold dict_get_default. rewrite Hst. reflexivity.
  - intros tool_call_id output exit_code Hpost Hst.
    rewrite (record_result_on_object _ _ _ _ _ _ _ _ _ _ _ Hpost).
    unfold dict_get_default. rewrite Hst. reflexivity.
  - intros event_id Hpost Hst.
    rewrite (explain_on_object _ _ _ _ _ _ _ _ Hpost).
    unfold dict_get_default. rewrite Hst. reflexivity.
Qed.

(** C10 at a sidecar answering [{"event_id": 9}]: is_traced raises, ingest
    returns 9. *)
Lemma rpc_missing_status_handling_witness :
  fst (HTTP.is_traced ascii_only sample_json_loads
         (stub_sidecar (Http2xx 200 body_event_only)) "http://localhost:8080" 9 "pii" [])
  = Raise (ChitinError (PInt CHITIN_ERR_INTERNAL) (PStr "is_traced failed"))
  /\ fst (HTTP.ingest ascii_only sample_json_loads int_of_str_stub
            (stub_sidecar (Http2xx 200 body_event_only)) "http://localhost:8080"
            "hi" TrustLevel.USER None [])
     = Ret 9.
Proof.
  pose proof (rpc_missing_status_handling ascii_only sample_json_loads int_of_str_stub
                (stub_sidecar (Http2xx 200 body_event_only)) "http://localhost:8080"
                {[ "event_id" := PInt 9 ]} []) as H.
  split.
  - specialize (H [HttpPost "http://localhost:8080/is_traced" (HTTP.is_traced_body 9 "pii")]).
    destruct H as [H _]. rewrite (H 9 "pii" eq_refl eq_refl). reflexivity.
  - specialize (H [HttpPost "http://localhost:8080/ingest"
                     (HTTP.ingest_body "hi" TrustLevel.USER None)]).
    destruct H as [_ [_ [H _]]]. rewrite (H "hi" TrustLevel.USER None eq_refl eq_refl).
    reflexivity.
Defined.

(** ** Statuses outside propose *)

Section NativeStatus.
Variable utf8_valid : string -> bool.
Variable json_loads : string -> option pyval.
Variable json_dumps : pyval -> string.
Variable lib : native_lib.

Lemma ffi_ingest_fail engine content trust_level metadata st out_id t t2 msg :
  FFI.ingest_call json_dumps lib engine content trust_level metadata = (st, out_id) ->
  st <> CHITIN_OK ->
  FFI._last_error utf8_valid lib (t ++ [LibCall fn_ingest]) = (Ret msg, t2) ->
  FFI.ingest utf8_valid json_dumps lib engine content trust_level metadata t =
    (Raise (ChitinError (PInt st) (PStr msg)), t2).
Proof.
  intros Hc Hst Hle. unfold FFI.ingest, bind. rewrite emit_run, Hc.
  rewrite (check_ok_fail _ _ _ _ _ _ Hst Hle). reflexivity.
Qed.

Lemma ffi_record_result_fail engine tool_call_id output exit_code st out_id t t2 msg :
  FFI.record_result_call lib engine tool_call_id output exit_code = (st, out_id) ->
  st <> CHITIN_OK ->
  FFI._last_error utf8_valid lib (t ++ [LibCall fn_record_result]) = (Ret msg, t2) ->
  FFI.record_result utf8_valid lib engine tool_call_id output exit_code t =
    (Raise (ChitinError (PInt st) (PStr msg)), t2).
Proof.
  intros Hc Hst Hle. unfold FFI.record_result, bind. rewrite emit_run, Hc.
  rewrite (check_ok_fail _ _ _ _ _ _ Hst Hle). reflexivity.
Qed.

Lemma ffi_is_traced_fail engine event_id label st out_result t t2 msg :
  FFI.is_traced_call lib engine event_id label = (st, out_result) ->
  st <> CHITIN_OK ->
  FFI._last_error utf8_valid lib (t ++ [LibCall fn_is_traced]) = (Ret msg, t2) ->
  FFI.is_traced utf8_valid lib engine event_id label t =
    (Raise (ChitinError (PInt st) (PStr msg)), t2).
Proof.
  intros Hc Hst Hle. unfold FFI.is_traced, bind. rewrite emit_run, Hc.
  rewrite (check_ok_fail _ _ _ _ _ _ Hst Hle). reflexivity.
Qed.

Lemma ffi_explain_fail engine event_id st out_json out_len t t2 msg :
  chitin_explain lib engine (c_uint64 event_id) = (st, out_json, out_len) ->
  st <> CHITIN_OK ->
  FFI._last_error utf8_valid lib (t ++ [LibCall fn_explain]) = (Ret msg, t2) ->
  FFI.explain utf8_valid json_loads lib engine event_id t =
    (Raise (ChitinError (PInt st) (PStr msg)), t2).
Proof.
  intros Hc Hst Hle. rewrite explain_run, Hc. cbn zeta.
  rewrite (check_ok_fail _ _ _ _ _ _ Hst Hle). reflexivity.
Qed.

Lemma ffi_register_tool_fail engine name risk category st t t2 msg :
  FFI.register_tool_call json_dumps lib engine name risk category = st ->
  st <> CHITIN_OK ->
  FFI._last_error utf8_valid lib (t ++ [LibCall fn_register_tool]) = (Ret msg, t2) ->
  FFI.register_tool utf8_valid json_dumps lib engine name risk category t =
    (Raise (ChitinError (PInt st) (PStr msg)), t2).
Proof.
  intros Hc Hst Hle. unfold FFI.register_tool, bind. rewrite emit_run, Hc.
  apply (check_ok_fail _ _ _ _ _ _ Hst Hle).
Qed.









End NativeStatus.




(** ** Propose: verdicts are returned *)

Lemma last_error_raises_only_decode (utf8_valid : string -> bool) (lib : native_lib)
    (t t' : list tcall) (x : exn) :
  FFI._last_error utf8_valid lib t = (Raise x, t') -> x = UnicodeDecodeError.
Proof.
  rewrite last_error_run. cbn zeta.
  destruct (chitin_last_error lib) as [[st out_json] out_len].
  destruct out_json as [buf|]; [|discriminate].
  destruct (Z.eqb st CHITIN_ERR_NOT_FOUND); [discriminate|].
  unfold decode_utf8. destruct (utf8_valid (read_text buf out_len)); [discriminate|].
  intros H. inversion H. reflexivity.
Qed.

Lemma rpc_propose_chitin_error_from_post
    (utf8_valid : string -> bool) (json_loads : string -> option pyval)
    (int_of_str : string -> option Z)
    (sidecar : string -> gmap string pyval -> http_reply) (base_url : string)
    tool params agent_id input_sources (t : list tcall) (s m : pyval) :
  fst (HTTP.propose utf8_valid json_loads int_of_str sidecar base_url
         tool params agent_id input_sources t) = Raise (ChitinError s m) ->
  fst (HTTP._post utf8_valid json_loads sidecar base_url "/propose"
         (HTTP.propose_body tool params agent_id input_sources) t)
    = Raise (ChitinError s m).
Proof.
  unfold HTTP.propose, bind.
  destruct (HTTP._post utf8_valid json_loads sidecar base_url "/propose"
              (HTTP.propose_body tool params agent_id input_sources) t) as [[v|x] t'];
    [|cbn [fst]; intros H; inversion H; reflexivity].
  destruct v as [| | | | |d]; cbn [as_dict lift fst]; try discriminate.
  unfold HTTP.int_event_id, dict_item, bind, lift.
  destruct (d !! "event_id") as [[| | |str| |]|]; cbn [py_int fst]; try discriminate.
  destruct (int_of_str str); cbn [fst]; discriminate.
Qed.

Lemma rpc_post_chitin_error_not_2xx
    (utf8_valid : string -> bool) (json_loads : string -> option pyval)
    (sidecar : string -> gmap string pyval -> http_reply) (base_url path : string)
    (body : gmap string pyval) (t : list tcall) (s m : pyval) :
  fst (HTTP._post utf8_valid json_loads sidecar base_url path body t)
    = Raise (ChitinError s m) ->
  forall status raw, HTTP.reply_to sidecar base_url path body <> Http2xx status raw.
Proof.
  intros H status raw Hr. revert H.
  unfold HTTP._post. rewrite Hr. unfold bind. rewrite emit_run.
  match goal with |- context [if ?c then _ else _] => destruct c end; [discriminate|].
  unfold lift, decode_utf8. destruct (utf8_valid raw); [|discriminate].
  destruct (json_loads raw); discriminate.
Qed.

(** Over RPC a non-2xx response whose payload carries status DENIED
    makes propose raise a ChitinError with status DENIED. *)
Lemma rpc_propose_raises_with_denied_status :
  fst (HTTP.propose ascii_only sample_json_loads int_of_str_stub
         (stub_sidecar (HttpError "HTTP Error 403: Forbidden" error_payload_denied))
         "http://localhost:8080" "noop" "{}" None None [])
  = Raise (ChitinError (PInt CHITIN_ERR_DENIED) (PStr "denied")).
Proof. vm_compute. reflexivity. Qed.

(** What propose does on each transport when the last-error text can be
    fetched.  Native: a Decision on OK, DENIED and ESCALATED, and a
    ChitinError only for a status outside these three, with that status.
    RPC: a 2xx object with an integer [event_id] yields a Decision
    whatever verdict it carries, and a ChitinError comes only from an
    exchange that did not end in a 2xx response. *)
Lemma propose_returns_verdicts
    (utf8_valid : string -> bool) (json_loads : string -> option pyval)
    (int_of_str : string -> option Z)
    (lib : native_lib) (sidecar : string -> gmap string pyval -> http_reply)
    (base_url : string) (engine : Z) (tool params : string)
    (agent_id : option string) (input_sources : option (list Z))
    (st out_id : Z) (t : list tcall) :
  FFI.propose_call lib engine tool params agent_id input_sources = (st, out_id) ->
  let native := FFI.propose utf8_valid json_loads lib engine tool params agent_id
                  input_sources t in
  let rpc := HTTP.propose utf8_valid json_loads int_of_str sidecar base_url
               tool params agent_id input_sources t in
  let t1 := t ++ [LibCall fn_propose] in
  (st = CHITIN_OK -> exists dec, native = (Ret dec, t1) /\ allowed dec = true)
  /\ (st = CHITIN_ERR_DENIED \/ st = CHITIN_ERR_ESCALATED ->
      forall err t2, FFI._last_error utf8_valid lib t1 = (Ret err, t2) ->
      exists dec, native = (Ret dec, t2) /\ allowed dec = false)
  /\ (forall s m, fst native = Raise (ChitinError s m) ->
      s = PInt st /\ st <> CHITIN_OK /\ st <> CHITIN_ERR_DENIED
      /\ st <> CHITIN_ERR_ESCALATED)
  /\ (st <> CHITIN_OK -> st <> CHITIN_ERR_DENIED -> st <> CHITIN_ERR_ESCALATED ->
      forall err t2, FFI._last_error utf8_valid lib t1 = (Ret err, t2) ->
      native = (Raise (ChitinError (PInt st) (PStr err)), t2))
  /\ (forall d n t',
      HTTP._post utf8_valid json_loads sidecar base_url "/propose"
        (HTTP.propose_body tool params agent_id input_sources) t = (Ret (PDict d), t') ->
      d !! "event_id" = Some (PInt n) ->
      rpc = (Ret (mkDecision (py_bool (dict_get_default d "allowed" (PBool false)))
                             (dict_get_default d "outcome" (PStr "deny")) n
                             (dict_get d "rule_id") (dict_get d "reason")), t'))
  /\ (forall s m, fst rpc = Raise (ChitinError s m) ->
      forall status raw,
        HTTP.reply_to sidecar base_url "/propose"
          (HTTP.propose_body tool params agent_id input_sources) <> Http2xx status raw).
Proof.
  intros Hcall native rpc t1. subst native rpc t1.
  rewrite propose_run, Hcall. cbn zeta.
  repeat split.
  - intros ->. eexists. split; reflexivity.
  - intros Hst err t2 Hle. rewrite Hle.
    destruct Hst as [-> | ->]; eexists; split; reflexivity.
  - revert H. destruct (Z.eqb st CHITIN_OK); [discriminate|].
    destruct (FFI._last_error utf8_valid lib (t ++ [LibCall fn_propose])) as [[err|x] t2] eqn:Hle.
    + destruct (Z.eqb st CHITIN_ERR_DENIED || Z.eqb st CHITIN_ERR_ESCALATED);
        [discriminate|].
      cbn [fst]. intros H. inversion H. reflexivity.
    + apply last_error_raises_only_decode in Hle. subst x. discriminate.
  - revert H. destruct (Z.eqb st CHITIN_OK) eqn:E; [discriminate|].
    intros _. apply Z.eqb_neq in E. exact E.
  - revert H. destruct (Z.eqb st CHITIN_OK); [discriminate|].
    destruct (FFI._last_error utf8_valid lib (t ++ [LibCall fn_propose])) as [[err|x] t2] eqn:Hle.
    + destruct (Z.eqb st CHITIN_ERR_DENIED) eqn:E; [discriminate|].
      intros _. apply Z.eqb_neq in E. exact E.
    + apply last_error_raises_only_decode in Hle. subst x. discriminate.
  - revert H. destruct (Z.eqb st CHITIN_OK); [discriminate|].
    destruct (FFI._last_error utf8_valid lib (t ++ [LibCall fn_propose])) as [[err|x] t2] eqn:Hle.
    + destruct (Z.eqb st CHITIN_ERR_ESCALATED) eqn:E;
        [rewrite orb_true_r; discriminate|].
      intros _. apply Z.eqb_neq in E. exact E.
    + apply last_error_raises_only_decode in Hle. subst x. discriminate.
  - intros H0 H2 H3 err t2 Hle. rewrite Hle.
    apply Z.eqb_neq in H0, H2, H3. rewrite H0, H2, H3. reflexivity.
  - intros d n t' Hpost Hid.
    rewrite (propose_on_object _ _ _ _ _ _ _ _ _ _ _ _ Hpost).
    rewrite (int_event_id_int _ _ _ _ Hid). reflexivity.
  - intros s m Hraise.
    apply rpc_propose_chitin_error_from_post in Hraise.
    exact (rpc_post_chitin_error_not_2xx _ _ _ _ _ _ _ _ _ Hraise).
Qed.

(** C2, where it fails.  On a native session, when the engine answers
    propose with DENIED or ESCALATED and its last-error text is not valid
    UTF-8, [Engine.propose] raises UnicodeDecodeError instead of
    returning the deny or escalate Decision: the fetch stands before the
    [try] that would fall back to the raw text. *)
Theorem engine_propose_raises_on_verdict
    (utf8_valid : string -> bool) (json_loads : string -> option pyval)
    (int_of_str : string -> option Z)
    (sidecar : string -> gmap string pyval -> http_reply)
    (e : engine) (l : native_lib) (tool params : string)
    (agent_id : option string) (input_sources : option (list Z))
    (st out_id st_err : Z) (buf : out_buffer) (len : Z) (t : list tcall) :
  _backend e = backend_ffi ->
  _ffi e = Some l ->
  FFI.propose_call l (handle_arg (_handle e)) tool params agent_id input_sources
    = (st, out_id) ->
  st = CHITIN_ERR_DENIED \/ st = CHITIN_ERR_ESCALATED ->
  chitin_last_error l = (st_err, Some buf, len) ->
  st_err <> CHITIN_ERR_NOT_FOUND ->
  utf8_valid (string_at (c_char_p_value buf) (py_after buf) len) = false ->
  fst (Engine.propose utf8_valid json_loads int_of_str sidecar e
         tool params agent_id input_sources t)
  = Raise UnicodeDecodeError.
Proof.
  intros Hb Hf Hcall Hst Hle Hne Hbad. fold (read_text buf len) in Hbad.
  unfold Engine.propose. rewrite (dispatch_native _ _ _ _ _ Hb Hf).
  rewrite propose_run, Hcall. cbn zeta.
  assert (E0 : Z.eqb st CHITIN_OK = false)
    by (destruct Hst as [-> | ->]; reflexivity).
  rewrite E0.
  rewrite (last_error_frees_once utf8_valid l _ st_err buf len Hle Hne).
  unfold decode_utf8. rewrite Hbad. reflexivity.
Qed.

Lemma engine_propose_raises_on_verdict_witness :
  fst (Engine.propose ascii_only sample_json_loads int_of_str_stub
         (stub_sidecar (UrlError "unreachable"))
         (mkEngine backend_ffi
            (Some (stub_lib CHITIN_ERR_ESCALATED 7 (None, 0)
                     (CHITIN_OK, Some (engine_buffer bad_utf8), 1)))
            (Some 1) None)
         "noop" "{}" None None [])
  = Raise UnicodeDecodeError.
Proof.
  apply (engine_propose_raises_on_verdict ascii_only sample_json_loads int_of_str_stub
           (stub_sidecar (UrlError "unreachable"))
           (mkEngine backend_ffi
              (Some (stub_lib CHITIN_ERR_ESCALATED 7 (None, 0)
                       (CHITIN_OK, Some (engine_buffer bad_utf8), 1)))
              (Some 1) None)
           (stub_lib CHITIN_ERR_ESCALATED 7 (None, 0)
              (CHITIN_OK, Some (engine_buffer bad_utf8), 1))
           "noop" "{}" None None CHITIN_ERR_ESCALATED 7 CHITIN_OK
           (engine_buffer bad_utf8) 1 []);
    try reflexivity.
  - right. reflexivity.
  - discriminate.
Defined.

(** ** Transport invariance of propose *)

(** The two adapters build the same Decision from equivalent reports
    provided a deny or escalate report carries a [reason] field. *)
Lemma transports_agree_when_reason_present
    (utf8_valid : string -> bool) (json_loads : string -> option pyval)
    (int_of_str : string -> option Z)
    (lib : native_lib) (sidecar : string -> gmap string pyval -> http_reply)
    (base_url : string) (engine : Z) (tool params : string)
    (agent_id : option string) (input_sources : option (list Z))
    (st out_id : Z) (err_json : string) (d : gmap string pyval)
    (t t2 t' : list tcall) :
  FFI.propose_call lib engine tool params agent_id input_sources = (st, out_id) ->
  FFI._last_error utf8_valid lib (t ++ [LibCall fn_propose]) = (Ret err_json, t2) ->
  HTTP._post utf8_valid json_loads sidecar base_url "/propose"
    (HTTP.propose_body tool params agent_id input_sources) t = (Ret (PDict d), t') ->
  reports_same_verdict json_loads st out_id err_json d ->
  (st <> CHITIN_OK -> is_Some (d !! "reason")) ->
  fst (FFI.propose utf8_valid json_loads lib engine tool params agent_id input_sources t)
  = fst (HTTP.propose utf8_valid json_loads int_of_str sidecar base_url
           tool params agent_id input_sources t).
Proof.
  intros Hcall Hle Hpost [Hid Hv] Hreason.
  rewrite propose_run, Hcall. cbn zeta.
  rewrite (propose_on_object _ _ _ _ _ _ _ _ _ _ _ _ Hpost).
  rewrite (int_event_id_int _ _ _ _ Hid). cbn [fst].
  destruct Hv as [(-> & Ha & Ho & Hr & Hs) | (obj & Hj & Ha & Hso & Hr & Hs)].
  - cbn [Z.eqb CHITIN_OK fst]. unfold dict_get_default. rewrite Ha, Ho, Hr, Hs. reflexivity.
  - assert (Hne : st <> CHITIN_OK) by (destruct Hso as [[-> _] | [-> _]]; discriminate).
    destruct (Hreason Hne) as [r Hr'].
    rewrite Hle. rewrite (verdict_fields_object json_loads err_json obj Hj).
    unfold dict_get, dict_get_default. rewrite Ha, Hr, Hs, Hr'.
    destruct Hso as [[-> Ho] | [-> Ho]]; rewrite Ho; reflexivity.
Qed.

(** C1, at the failing input.  The engine denies with rule [r1] and gives
    no reason: the last-error text is [{"rule_id": "r1"}] and the sidecar
    answers [{"allowed": false, "outcome": "deny", "event_id": 7,
    "rule_id": "r1"}].  The reports are equivalent, yet the native
    adapter builds [reason=""] and the RPC adapter [reason=None]. *)
Theorem transports_disagree_on_absent_reason :
  reports_same_verdict sample_json_loads CHITIN_ERR_DENIED 7 error_json_no_reason
    (<[ "rule_id" := PStr "r1" ]>
       (<[ "event_id" := PInt 7 ]>
          (<[ "outcome" := PStr "deny" ]> {[ "allowed" := PBool false ]})))
  /\ fst (FFI.propose ascii_only sample_json_loads
            (stub_lib CHITIN_ERR_DENIED 7 (None, 0) (last_error_text error_json_no_reason))
            1 "noop" "{}" None (Some [3]) [])
     = Ret (mkDecision false (PStr "deny") 7 (PStr "r1") (PStr ""))
  /\ fst (HTTP.propose ascii_only sample_json_loads int_of_str_stub
            (stub_sidecar (Http2xx 200 deny_body_no_reason)) "http://localhost:8080"
            "noop" "{}" None (Some [3]) [])
     = Ret (mkDecision false (PStr "deny") 7 (PStr "r1") PNone).
Proof.
  split; [|split; vm_compute; reflexivity].
  split; [vm_compute; reflexivity|].
  right. exists {[ "rule_id" := PStr "r1" ]}.
  repeat split; try (vm_compute; reflexivity).
  left. split; vm_compute; reflexivity.
Qed.

(** * Further properties of the client *)

(** ** Library resolver *)

(** An explicit CHITIN_LIB_PATH that names an existing file wins over
    every other candidate; its absolute path is returned. *)
Theorem resolve_explicit_override_first (h : host) (p : string) :
  env_CHITIN_LIB_PATH h = Some p ->
  p <> "" ->
  isfile h p = true ->
  Resolve.resolve_chitin_lib h = abspath h p.
Proof.
  intros Henv Hne Hfile. unfold Resolve.resolve_chitin_lib. rewrite Henv, Hfile.
  apply String.eqb_neq in Hne. rewrite Hne. reflexivity.
Qed.

Lemma resolve_explicit_override_first_witness :
  Resolve.resolve_chitin_lib host_without_transports = "/tmp/test_engine_fallback.py".
Proof.
  apply (resolve_explicit_override_first host_without_transports
           "/tmp/test_engine_fallback.py").
  - reflexivity.
  - discriminate.
  - reflexivity.
Defined.

(** An override that is unset, empty or does not name an existing file
    is skipped without an error, and the remaining candidates are tried
    in the order bundled, local build, sibling build; when none exists
    the bare library name is returned for the loader's own search. *)
Theorem resolve_search_order (h : host) :
  override_usable h = false ->
  let name := Resolve._lib_name h in
  let bundled := (bundled_dir h ++ name)%string in
  let dev_cwd := (cwd_release_dir h ++ name)%string in
  let sibling := (sibling_release_dir h ++ name)%string in
  (path_exists h bundled = true -> Resolve.resolve_chitin_lib h = bundled)
  /\ (path_exists h bundled = false -> isfile h dev_cwd = true ->
      Resolve.resolve_chitin_lib h = dev_cwd)
  /\ (path_exists h bundled = false -> isfile h dev_cwd = false ->
      isfile h sibling = true -> Resolve.resolve_chitin_lib h = sibling)
  /\ (path_exists h bundled = false -> isfile h dev_cwd = false ->
      isfile h sibling = false -> Resolve.resolve_chitin_lib h = name).
Proof.
  intros Hov name bundled dev_cwd sibling.
  assert (Hres : Resolve.resolve_chitin_lib h =
                 if path_exists h bundled then bundled
                 else if isfile h dev_cwd then dev_cwd
                 else if isfile h sibling then sibling else name).
  { unfold Resolve.resolve_chitin_lib, override_usable in *.
    destruct (env_CHITIN_LIB_PATH h) as [p|]; [|reflexivity].
    rewrite Hov. reflexivity. }
  rewrite Hres. repeat split.
  - intros ->. reflexivity.
  - intros -> ->. reflexivity.
  - intros -> -> ->. reflexivity.
  - intros -> -> ->. reflexivity.
Qed.

Lemma resolve_search_order_witness :
  Resolve.resolve_chitin_lib host_with_library
    = "/site-packages/chitin/_lib/libchitin.dylib"
  /\ Resolve.resolve_chitin_lib host_with_sidecar = "libchitin.so".
Proof.
  split.
  - apply (proj1 (resolve_search_order host_with_library eq_refl)). reflexivity.
  - apply (proj2 (proj2 (proj2 (resolve_search_order host_with_sidecar eq_refl))));
      reflexivity.
Defined.

(** ** Base URL of the RPC adapter *)

Lemma rstrip_slash_cons (c : ascii) (r : string) :
  rstrip_slash (String c r) =
  match rstrip_slash r with
  | EmptyString => if Ascii.eqb c "/"%char then EmptyString else String c EmptyString
  | r' => String c r'
  end.
Proof. reflexivity. Qed.

Lemma rstrip_slash_snoc (s : string) :
  rstrip_slash (s ++ "/")%string = rstrip_slash s.
Proof.
  induction s as [|c r IH]; [reflexivity|].
  change (String c r ++ "/")%string with (String c (r ++ "/")%string).
  rewrite !rstrip_slash_cons, IH. reflexivity.
Qed.

Lemma rstrip_slash_no_trailing (s : string) :
  ends_with_slash (rstrip_slash s) = false.
Proof.
  induction s as [|c r IH]; [reflexivity|].
  cbn [rstrip_slash]. destruct (rstrip_slash r) as [|c' r'] eqn:E.
  - destruct (Ascii.eqb c "/"%char) eqn:Ec; [reflexivity|]. cbn. exact Ec.
  - cbn [ends_with_slash] in *. exact IH.
Qed.

Lemma rstrip_slash_fixed (s : string) :
  ends_with_slash s = false -> rstrip_slash s = s.
Proof.
  induction s as [|c r IH]; [reflexivity|].
  intros H. cbn [rstrip_slash]. destruct r as [|c' r'].
  - cbn in H |- *. rewrite H. reflexivity.
  - cbn [ends_with_slash] in H. rewrite (IH H). reflexivity.
Qed.

(** The adapter's base never ends in a slash, stripping is idempotent,
    and a base URL written with or without trailing slashes addresses the
    same endpoints. *)
Theorem base_url_trailing_slashes (base_url : string) :
  ends_with_slash (HTTP._base base_url) = false
  /\ HTTP._base (HTTP._base base_url) = HTTP._base base_url
  /\ HTTP._base (base_url ++ "/") = HTTP._base base_url
  /\ HTTP._base ((base_url ++ "/") ++ "/") = HTTP._base base_url.
Proof.
  unfold HTTP._base. repeat split.
  - apply rstrip_slash_no_trailing.
  - apply rstrip_slash_fixed, rstrip_slash_no_trailing.
  - apply rstrip_slash_snoc.
  - rewrite !rstrip_slash_snoc. reflexivity.
Qed.

(** ** Integer marshalling *)

(** [c_int32] and [c_uint64] wrap a value into range and leave a value
    that is already in range unchanged. *)
Lemma ctypes_integers_wrap (z : Z) :
  (- 2 ^ 31 <= c_int32 z < 2 ^ 31)
  /\ (- 2 ^ 31 <= z < 2 ^ 31 -> c_int32 z = z)
  /\ c_int32 (z + 2 ^ 32) = c_int32 z
  /\ (0 <= c_uint64 z < 2 ^ 64)
  /\ (0 <= z < 2 ^ 64 -> c_uint64 z = z)
  /\ c_uint64 (z + 2 ^ 64) = c_uint64 z.
Proof.
  unfold c_int32, c_uint64.
  pose proof (Z.mod_pos_bound (z + 2 ^ 31) (2 ^ 32) ltac:(lia)) as B32.
  pose proof (Z.mod_pos_bound z (2 ^ 64) ltac:(lia)) as B64.
  split; [lia|]. split.
  { intros H. rewrite Z.mod_small by lia. lia. }
  split.
  { replace (z + 2 ^ 32 + 2 ^ 31) with (z + 2 ^ 31 + 1 * 2 ^ 32) by lia.
    rewrite Z.mod_add by lia. reflexivity. }
  split; [lia|]. split.
  { intros H. apply Z.mod_small. lia. }
  replace (z + 2 ^ 64) with (z + 1 * 2 ^ 64) by lia.
  rewrite Z.mod_add by lia. reflexivity.
Qed.

Lemma map_c_uint64_shift (l : list Z) :
  List.map c_uint64 (List.map (fun z => z + 2 ^ 64) l) = List.map c_uint64 l.
Proof.
  induction l as [|y l IH]; [reflexivity|].
  cbn [List.map]. rewrite IH.
  rewrite (proj2 (proj2 (proj2 (proj2 (proj2 (ctypes_integers_wrap y)))))).
  reflexivity.
Qed.

(** The integer arguments of the native adapter are wrapped, not
    rejected.  A trust level or exit code within int32 and an event id
    within uint64 reach the engine as given; values that differ by 2^32
    (trust level, exit code) or by 2^64 (event ids, input sources) give
    the engine the same call. *)
Theorem native_integer_arguments
    (json_dumps : pyval -> string) (lib : native_lib) (engine : Z) :
  (forall content trust_level,
      - 2 ^ 31 <= trust_level < 2 ^ 31 ->
      FFI.ingest_call json_dumps lib engine content trust_level None
      = chitin_ingest lib engine (Some content) (Z.of_nat (String.length content))
          trust_level None 0)
  /\ (forall content trust_level metadata,
      FFI.ingest_call json_dumps lib engine content (trust_level + 2 ^ 32) metadata
      = FFI.ingest_call json_dumps lib engine content trust_level metadata)
  /\ (forall tool_call_id output exit_code,
      0 <= tool_call_id < 2 ^ 64 -> - 2 ^ 31 <= exit_code < 2 ^ 31 ->
      FFI.record_result_call lib engine tool_call_id output exit_code
      = chitin_record_result lib engine tool_call_id (Some output)
          (Z.of_nat (String.length output)) exit_code)
  /\ (forall tool_call_id output exit_code,
      FFI.record_result_call lib engine (tool_call_id + 2 ^ 64) output
        (exit_code + 2 ^ 32)
      = FFI.record_result_call lib engine tool_call_id output exit_code)
  /\ (forall ev label,
      FFI.is_traced_call lib engine (ev + 2 ^ 64) label
      = FFI.is_traced_call lib engine ev label)
  /\ (forall tool params agent_id x l,
      FFI.propose_call lib engine tool params agent_id
        (Some (map (fun z => z + 2 ^ 64) (x :: l)))
      = FFI.propose_call lib engine tool params agent_id (Some (x :: l))).
Proof.
  repeat apply conj.
  - intros content trust_level H. unfold FFI.ingest_call. cbn [_to_buf].
    rewrite (proj1 (proj2 (ctypes_integers_wrap trust_level)) H). reflexivity.
  - intros content trust_level metadata. unfold FFI.ingest_call.
    rewrite (proj1 (proj2 (proj2 (ctypes_integers_wrap trust_level)))). reflexivity.
  - intros tool_call_id output exit_code Hid Hex. unfold FFI.record_result_call.
    cbn [_to_buf].
    rewrite (proj1 (proj2 (ctypes_integers_wrap exit_code)) Hex).
    rewrite (proj1 (proj2 (proj2 (proj2 (proj2 (ctypes_integers_wrap tool_call_id))))) Hid).
    reflexivity.
  - intros tool_call_id output exit_code. unfold FFI.record_result_call.
    rewrite (proj1 (proj2 (proj2 (ctypes_integers_wrap exit_code)))).
    rewrite (proj2 (proj2 (proj2 (proj2 (proj2 (ctypes_integers_wrap tool_call_id)))))).
    reflexivity.
  - intros ev label. unfold FFI.is_traced_call.
    rewrite (proj2 (proj2 (proj2 (proj2 (proj2 (ctypes_integers_wrap ev)))))).
    reflexivity.
  - intros tool params agent_id x l. unfold FFI.propose_call.
    cbn [_to_buf]. destruct (_to_buf agent_id) as [agent_buf agent_len].
    cbn [List.map]. rewrite map_c_uint64_shift.
    rewrite (proj2 (proj2 (proj2 (proj2 (proj2 (ctypes_integers_wrap x)))))).
    cbn [length]. rewrite List.length_map. reflexivity.
Qed.

(** ** RPC adapter: requests *)

(** The trace of each RPC operation. *)

Section RpcTraces.
Variable utf8_valid : string -> bool.
Variable json_loads : string -> option pyval.
Variable int_of_str : string -> option Z.
Variable sidecar : string -> gmap string pyval -> http_reply.
Variable base_url : string.

Lemma http_ingest_trace content trust_level metadata (t : list tcall) :
  snd (HTTP.ingest utf8_valid json_loads int_of_str sidecar base_url
         content trust_level metadata t)
  = t ++ calls_for (HTTP.reply_to sidecar base_url "/ingest" (HTTP.ingest_body content trust_level metadata))
           (HttpPost (HTTP._base base_url ++ "/ingest") (HTTP.ingest_body content trust_level metadata)).
Proof.
  pose proof (post_trace utf8_valid json_loads sidecar base_url "/ingest"
                (HTTP.ingest_body content trust_level metadata) t) as Ht.
  unfold HTTP.ingest, bind.
  destruct (HTTP._post utf8_valid json_loads sidecar base_url "/ingest"
              (HTTP.ingest_body content trust_level metadata) t) as [[v|x] t'];
    cbn [snd] in Ht |- *; subst t'; [|reflexivity].
  destruct v as [| | | | |d]; cbn [as_dict lift snd]; try reflexivity.
  cbn zeta.
  destruct (negb (py_eq_int (dict_get_default d "status" (PInt CHITIN_OK)) CHITIN_OK));
    [reflexivity|].
  unfold HTTP.int_event_id, bind, lift.
  destruct (dict_item d "event_id") as [v|x]; reflexivity.
Qed.

Lemma http_propose_trace tool params agent_id input_sources (t : list tcall) :
  snd (HTTP.propose utf8_valid json_loads int_of_str sidecar base_url
         tool params agent_id input_sources t)
  = t ++ calls_for (HTTP.reply_to sidecar base_url "/propose" (HTTP.propose_body tool params agent_id input_sources))
           (HttpPost (HTTP._base base_url ++ "/propose") (HTTP.propose_body tool params agent_id input_sources)).
Proof.
  pose proof (post_trace utf8_valid json_loads sidecar base_url "/propose"
                (HTTP.propose_body tool params agent_id input_sources) t) as Ht.
  unfold HTTP.propose, bind.
  destruct (HTTP._post utf8_valid json_loads sidecar base_url "/propose"
              (HTTP.propose_body tool params agent_id input_sources) t) as [[v|x] t'];
    cbn [snd] in Ht |- *; subst t'; [|reflexivity].
  destruct v as [| | | | |d]; cbn [as_dict lift snd]; try reflexivity.
  cbn zeta. unfold HTTP.int_event_id, bind, lift.
  destruct (dict_item d "event_id") as [v|x]; [|reflexivity].
  destruct (py_int int_of_str v); reflexivity.
Qed.

Lemma http_record_result_trace tool_call_id output exit_code (t : list tcall) :
  snd (HTTP.record_result utf8_valid json_loads int_of_str sidecar base_url
         tool_call_id output exit_code t)
  = t ++ calls_for (HTTP.reply_to sidecar base_url "/record_result" (HTTP.record_result_body tool_call_id output exit_code))
           (HttpPost (HTTP._base base_url ++ "/record_result") (HTTP.record_result_body tool_call_id output exit_code)).
Proof.
  pose proof (post_trace utf8_valid json_loads sidecar base_url "/record_result"
                (HTTP.record_result_body tool_call_id output exit_code) t) as Ht.
  unfold HTTP.record_result, bind.
  destruct (HTTP._post utf8_valid json_loads sidecar base_url "/record_result"
              (HTTP.record_result_body tool_call_id output exit_code) t) as [[v|x] t'];
    cbn [snd] in Ht |- *; subst t'; [|reflexivity].
  destruct v as [| | | | |d]; cbn [as_dict lift snd]; try reflexivity.
  cbn zeta.
  destruct (negb (py_eq_int (dict_get_default d "status" (PInt CHITIN_OK)) CHITIN_OK));
    [reflexivity|].
  unfold HTTP.int_event_id, bind, lift.
  destruct (dict_item d "event_id") as [v|x]; reflexivity.
Qed.

Lemma http_is_traced_trace ev label (t : list tcall) :
  snd (HTTP.is_traced utf8_valid json_loads sidecar base_url ev label t)
  = t ++ calls_for (HTTP.reply_to sidecar base_url "/is_traced" (HTTP.is_traced_body ev label))
           (HttpPost (HTTP._base base_url ++ "/is_traced") (HTTP.is_traced_body ev label)).
Proof.
  pose proof (post_trace utf8_valid json_loads sidecar base_url "/is_traced"
                (HTTP.is_traced_body ev label) t) as Ht.
  unfold HTTP.is_traced, bind.
  destruct (HTTP._post utf8_valid json_loads sidecar base_url "/is_traced"
              (HTTP.is_traced_body ev label) t) as [[v|x] t'];
    cbn [snd] in Ht |- *; subst t'; [|reflexivity].
  destruct v as [| | | | |d]; cbn [as_dict lift snd]; try reflexivity.
  destruct (negb (py_eq_int (dict_get d "status") CHITIN_OK)); reflexivity.
Qed.

Lemma http_explain_trace ev (t : list tcall) :
  snd (HTTP.explain utf8_valid json_loads sidecar base_url ev t)
  = t ++ calls_for (HTTP.reply_to sidecar base_url "/explain" (HTTP.explain_body ev))
           (HttpPost (HTTP._base base_url ++ "/explain") (HTTP.explain_body ev)).
Proof.
  pose proof (post_trace utf8_valid json_loads sidecar base_url "/explain"
                (HTTP.explain_body ev) t) as Ht.
  unfold HTTP.explain, bind.
  destruct (HTTP._post utf8_valid json_loads sidecar base_url "/explain"
              (HTTP.explain_body ev) t) as [[v|x] t'];
    cbn [snd] in Ht |- *; subst t'; [|reflexivity].
  destruct v as [| | | | |d]; cbn [as_dict lift snd]; try reflexivity.
  cbn zeta.
  destruct (negb (py_eq_int (dict_get_default d "status" (PInt CHITIN_OK)) CHITIN_OK));
    reflexivity.
Qed.

Lemma http_register_tool_trace name risk category (t : list tcall) :
  snd (HTTP.register_tool utf8_valid json_loads sidecar base_url
         name risk category t)
  = t ++ calls_for (HTTP.reply_to sidecar base_url "/register_tool" (HTTP.register_tool_body name risk category))
           (HttpPost (HTTP._base base_url ++ "/register_tool") (HTTP.register_tool_body name risk category)).
Proof.
  pose proof (post_trace utf8_valid json_loads sidecar base_url "/register_tool"
                (HTTP.register_tool_body name risk category) t) as Ht.
  unfold HTTP.register_tool, bind.
  destruct (HTTP._post utf8_valid json_loads sidecar base_url "/register_tool"
              (HTTP.register_tool_body name risk category) t) as [[v|x] t'];
    cbn [snd] in Ht |- *; subst t'; reflexivity.
Qed.

End RpcTraces.




(** Required fields are always in the request body, and an optional
    argument (agent id, input sources, metadata, category) is in it
    exactly when the caller supplied one. *)
Theorem rpc_optional_fields_sent_when_supplied :
  (forall tool params agent_id input_sources,
      let b := HTTP.propose_body tool params agent_id input_sources in
      b !! "tool" = Some (PStr tool)
      /\ b !! "params" = Some (PStr params)
      /\ b !! "agent_id" = PStr <$> agent_id
      /\ b !! "input_sources" = (fun l => PList (map PInt l)) <$> input_sources)
  /\ (forall content trust_level metadata,
      let b := HTTP.ingest_body content trust_level metadata in
      b !! "content" = Some (PStr content)
      /\ b !! "trust" = Some (PInt trust_level)
      /\ b !! "metadata" = metadata)
  /\ (forall name risk category,
      let b := HTTP.register_tool_body name risk category in
      b !! "tool_name" = Some (PStr name)
      /\ b !! "risk" = Some (PStr risk)
      /\ b !! "category" = PStr <$> category).
Proof.
  split; [|split].
  - intros tool params agent_id input_sources b. subst b.
    destruct agent_id, input_sources; repeat split; reflexivity.
  - intros content trust_level metadata b. subst b.
    destruct metadata; repeat split; reflexivity.
  - intros name risk category b. subst b.
    destruct category; repeat split; reflexivity.
Qed.

(** ** Propose: marshalling and the Decision *)

(** An empty list of input sources is passed to the native engine like an
    absent one (NULL, length 0), whereas the RPC adapter sends an empty
    list when given one and omits the field only when given none. *)
Theorem empty_input_sources_by_transport
    (utf8_valid : string -> bool) (json_loads : string -> option pyval)
    (lib : native_lib) (engine : Z) (tool params : string)
    (agent_id : option string) (t : list tcall) :
  FFI.propose utf8_valid json_loads lib engine tool params agent_id (Some []) t
    = FFI.propose utf8_valid json_loads lib engine tool params agent_id None t
  /\ HTTP.propose_body tool params agent_id (Some []) !! "input_sources"
     = Some (PList [])
  /\ HTTP.propose_body tool params agent_id None !! "input_sources" = None.
Proof.
  split; [reflexivity|].
  split; destruct agent_id; reflexivity.
Qed.

(** A Decision returned by the native adapter is allowed exactly when
    the engine answered OK, exactly when its outcome is "allow"; its
    outcome is one of the three verdicts, its event id is the
    out-parameter, and an allowing Decision has no rule id and no
    reason. *)
Theorem native_decision_invariant
    (utf8_valid : string -> bool) (json_loads : string -> option pyval)
    (lib : native_lib) (engine : Z) (tool params : string)
    (agent_id : option string) (input_sources : option (list Z))
    (dec : Decision) (t t' : list tcall) :
  FFI.propose utf8_valid json_loads lib engine tool params agent_id input_sources t
    = (Ret dec, t') ->
  event_id dec = snd (FFI.propose_call lib engine tool params agent_id input_sources)
  /\ (allowed dec = true <->
      fst (FFI.propose_call lib engine tool params agent_id input_sources) = CHITIN_OK)
  /\ (allowed dec = true <-> outcome dec = PStr "allow")
  /\ (outcome dec = PStr "allow" \/ outcome dec = PStr "deny"
      \/ outcome dec = PStr "escalate")
  /\ (allowed dec = true -> rule_id dec = PNone /\ reason dec = PNone).
Proof.
  rewrite propose_run. cbn zeta.
  destruct (FFI.propose_call lib engine tool params agent_id input_sources) as [st out_id].
  cbn [fst snd].
  destruct (Z.eqb st CHITIN_OK) eqn:E0.
  - intros H. inversion H; subst. cbn [allowed outcome event_id rule_id reason].
    apply Z.eqb_eq in E0.
    split; [reflexivity|]. split; [split; auto|]. split; [split; auto|].
    split; auto.
  - destruct (FFI._last_error utf8_valid lib (t ++ [LibCall fn_propose])) as [[err|x] t2];
      [|discriminate].
    destruct (Z.eqb st CHITIN_ERR_DENIED || Z.eqb st CHITIN_ERR_ESCALATED);
      [|discriminate].
    intros H. inversion H; subst. cbn [allowed outcome event_id rule_id reason].
    apply Z.eqb_neq in E0.
    split; [reflexivity|]. split.
    { split; [discriminate | intros; contradiction]. }
    split.
    { split; [discriminate|].
      destruct (Z.eqb st CHITIN_ERR_DENIED); discriminate. }
    split.
    { destruct (Z.eqb st CHITIN_ERR_DENIED); auto. }
    discriminate.
Qed.

Lemma native_decision_invariant_witness :
  FFI.propose ascii_only sample_json_loads
    (stub_lib CHITIN_ERR_DENIED 7 (None, 0) (last_error_text error_json_full))
    1 "noop" "{}" None None []
  = (Ret (mkDecision false (PStr "deny") 7 (PStr "r1") (PStr "blocked")),
     [LibCall fn_propose; LibCall fn_last_error; LibFreeString (BytesObject error_json_full) 38])
  /\ (false = true <-> CHITIN_ERR_DENIED = CHITIN_OK).
Proof.
  split; [reflexivity|].
  exact (proj1 (proj2 (native_decision_invariant ascii_only sample_json_loads
                  (stub_lib CHITIN_ERR_DENIED 7 (None, 0) (last_error_text error_json_full))
                  1 "noop" "{}" None None
                  (mkDecision false (PStr "deny") 7 (PStr "r1") (PStr "blocked"))
                  []
                  [LibCall fn_propose; LibCall fn_last_error;
                   LibFreeString (BytesObject error_json_full) 38] eq_refl))).
Defined.

(** Over RPC the Decision is read field by field from the response
    object, failing closed: a missing [allowed] gives [allowed=False], a
    missing [outcome] gives "deny", missing [rule_id] and [reason] give
    None, and the event id is [int] of the [event_id] field, which must
    be present. *)
Theorem rpc_decision_defaults
    (utf8_valid : string -> bool) (json_loads : string -> option pyval)
    (int_of_str : string -> option Z)
    (sidecar : string -> gmap string pyval -> http_reply) (base_url : string)
    (tool params : string) (agent_id : option string)
    (input_sources : option (list Z))
    (d : gmap string pyval) (dec : Decision) (t t' t'' : list tcall) :
  HTTP._post utf8_valid json_loads sidecar base_url "/propose"
    (HTTP.propose_body tool params agent_id input_sources) t = (Ret (PDict d), t') ->
  HTTP.propose utf8_valid json_loads int_of_str sidecar base_url
    tool params agent_id input_sources t = (Ret dec, t'') ->
  (d !! "allowed" = None -> allowed dec = false)
  /\ (forall v, d !! "allowed" = Some v -> allowed dec = py_bool v)
  /\ (d !! "outcome" = None -> outcome dec = PStr "deny")
  /\ (d !! "rule_id" = None -> rule_id dec = PNone)
  /\ (d !! "reason" = None -> reason dec = PNone)
  /\ (exists v, d !! "event_id" = Some v /\ py_int int_of_str v = Ret (event_id dec)).
Proof.
  intros Hpost. rewrite (propose_on_object _ _ _ _ _ _ _ _ _ _ _ _ Hpost).
  unfold HTTP.int_event_id, dict_item, bind, lift.
  destruct (d !! "event_id") as [v|] eqn:Hid; [|discriminate].
  destruct (py_int int_of_str v) as [n|x] eqn:Hint; [|discriminate].
  intros H. inversion H; subst. cbn [allowed outcome rule_id reason event_id].
  unfold dict_get_default, dict_get.
  repeat split.
  - intros ->. reflexivity.
  - intros v0 ->. reflexivity.
  - intros ->. reflexivity.
  - intros ->. reflexivity.
  - intros ->. reflexivity.
  - exists v. split; [reflexivity | exact Hint].
Qed.

Lemma rpc_decision_defaults_witness :
  allowed (mkDecision false (PStr "deny") 9 PNone PNone) = false.
Proof.
  refine (proj1 (rpc_decision_defaults ascii_only sample_json_loads int_of_str_stub
                   (stub_sidecar (Http2xx 200 body_event_only)) "http://localhost:8080"
                   "noop" "{}" None None {[ "event_id" := PInt 9 ]}
                   (mkDecision false (PStr "deny") 9 PNone PNone)
                   [] [HttpPost "http://localhost:8080/propose"
                         (HTTP.propose_body "noop" "{}" None None)]
                   [HttpPost "http://localhost:8080/propose"
                         (HTTP.propose_body "noop" "{}" None None)]
                   eq_refl eq_refl) _).
  reflexivity.
Defined.

(** ** Native adapter: success and edge paths *)

(** When the engine answers OK, the native adapter returns the
    out-parameter after that single call: the last error is not fetched
    and nothing is freed.  is_traced maps any non-zero out-value to
    True. *)
Theorem native_success_without_error_fetch
    (utf8_valid : string -> bool) (json_dumps : pyval -> string)
    (lib : native_lib) (engine : Z) (t : list tcall) :
  (forall content trust_level metadata out_id,
      FFI.ingest_call json_dumps lib engine content trust_level metadata
        = (CHITIN_OK, out_id) ->
      FFI.ingest utf8_valid json_dumps lib engine content trust_level metadata t
        = (Ret out_id, t ++ [LibCall fn_ingest]))
  /\ (forall tool_call_id output exit_code out_id,
      FFI.record_result_call lib engine tool_call_id output exit_code
        = (CHITIN_OK, out_id) ->
      FFI.record_result utf8_valid lib engine tool_call_id output exit_code t
        = (Ret out_id, t ++ [LibCall fn_record_result]))
  /\ (forall ev label out_result,
      FFI.is_traced_call lib engine ev label = (CHITIN_OK, out_result) ->
      FFI.is_traced utf8_valid lib engine ev label t
        = (Ret (negb (Z.eqb out_result 0)), t ++ [LibCall fn_is_traced]))
  /\ (forall name risk category,
      FFI.register_tool_call json_dumps lib engine name risk category = CHITIN_OK ->
      FFI.register_tool utf8_valid json_dumps lib engine name risk category t
        = (Ret tt, t ++ [LibCall fn_register_tool])).
Proof.
  repeat split.
  - intros content trust_level metadata out_id H.
    unfold FFI.ingest, bind. rewrite emit_run, H. reflexivity.
  - intros tool_call_id output exit_code out_id H.
    unfold FFI.record_result, bind. rewrite emit_run, H. reflexivity.
  - intros ev label out_result H.
    unfold FFI.is_traced, bind. rewrite emit_run, H. reflexivity.
  - intros name risk category H.
    unfold FFI.register_tool, bind. rewrite emit_run, H. reflexivity.
Qed.





(** A payload with a NUL inside its declared length: the text read is
    the part before the NUL, the copy's own terminator, and bytes that
    are not the engine's. *)
Example explain_reads_copy_not_buffer :
  read_text {| buf_addr := 4096; buf_mem := String "a" (String Ascii.zero "cd");
               py_after := "xy" |} 4
  = String "a" (String Ascii.zero "xy").
Proof. reflexivity. Qed.

(** When the engine has no error recorded (status NOT_FOUND) or leaves a
    NULL pointer, the last-error text is "unknown error"; one library
    call is made and nothing is released. *)
Theorem last_error_unknown
    (utf8_valid : string -> bool) (lib : native_lib) (t : list tcall) :
  fst (fst (chitin_last_error lib)) = CHITIN_ERR_NOT_FOUND
  \/ snd (fst (chitin_last_error lib)) = None ->
  FFI._last_error utf8_valid lib t
    = (Ret "unknown error", t ++ [LibCall fn_last_error])
  /\ free_count (snd (FFI._last_error utf8_valid lib t)) = free_count t.
Proof.
  intros H.
  assert (Hrun : FFI._last_error utf8_valid lib t
                 = (Ret "unknown error", t ++ [LibCall fn_last_error])).
  { rewrite last_error_run. cbn zeta.
    destruct (chitin_last_error lib) as [[st out_json] out_len]. cbn [fst snd] in H.
    destruct out_json as [buf|]; [|reflexivity].
    destruct H as [-> | H]; [reflexivity | discriminate]. }
  split; [exact Hrun|]. rewrite Hrun. cbn [snd]. apply free_count_snoc_lib.
Qed.

Lemma last_error_unknown_witness :
  FFI._last_error ascii_only
    (stub_lib CHITIN_ERR_INVALID 0 (None, 0) (CHITIN_ERR_NOT_FOUND, Some (engine_buffer "stale"), 5)) []
  = (Ret "unknown error", [LibCall fn_last_error]).
Proof.
  apply (proj1 (last_error_unknown ascii_only
                  (stub_lib CHITIN_ERR_INVALID 0 (None, 0)
                     (CHITIN_ERR_NOT_FOUND, Some (engine_buffer "stale"), 5)) []
                  (or_introl eq_refl))).
Defined.

(** ** Session construction and close *)

(** Native first: when the resolved library loads with all its symbols
    and constructs an engine, the session is native with that handle
    after the single [chitin_engine_new] call, whether or not a sidecar
    is configured. *)
Theorem init_prefers_native
    (utf8_valid : string -> bool) (h : host) (config_path : option string)
    (t : list tcall) (l : native_lib) (handle : Z) :
  cdll h (Resolve.resolve_chitin_lib h) = Some l ->
  missing_symbol h (Resolve.resolve_chitin_lib h) = false ->
  chitin_engine_new l (fst (_to_buf config_path)) (snd (_to_buf config_path))
    = Some handle ->
  Engine.__init__ utf8_valid h config_path t
    = (Ret (mkEngine backend_ffi (Some l) (Some handle) None),
       t ++ [LibCall fn_engine_new]).
Proof.
  intros Hl Hsym Hnew.
  unfold Engine.__init__, Engine.try_ffi, bind, lift. rewrite (load_ffi_ok h l Hl Hsym).
  unfold FFI.engine_new. destruct (_to_buf config_path) as [path_buf path_len].
  cbn [fst snd] in Hnew. unfold bind. rewrite emit_run, Hnew. reflexivity.
Qed.

Lemma init_prefers_native_witness :
  fst (Engine.__init__ ascii_only host_with_library None [])
  = Ret (mkEngine backend_ffi
           (Some (stub_lib CHITIN_OK 1 (None, 0) (CHITIN_ERR_NOT_FOUND, None, 0)))
           (Some 1) None).
Proof.
  rewrite (init_prefers_native ascii_only host_with_library None []
             (stub_lib CHITIN_OK 1 (None, 0) (CHITIN_ERR_NOT_FOUND, None, 0)) 1
             eq_refl eq_refl eq_refl).
  reflexivity.
Defined.

(** Fallback: when the native attempt ends in an OSError or ChitinError
    and CHITIN_SIDECAR_URL is set and non-empty, the session is an RPC
    session holding that URL; construction sends no request to the
    sidecar. *)
Theorem init_falls_back_to_sidecar
    (utf8_valid : string -> bool) (h : host) (config_path : option string)
    (t t' : list tcall) (x : exn) (url : string) :
  Engine.try_ffi utf8_valid h config_path t = (Raise x, t') ->
  Engine.caught x = true ->
  env_CHITIN_SIDECAR_URL h = Some url ->
  url <> "" ->
  Engine.__init__ utf8_valid h config_path t
    = (Ret (mkEngine backend_http None None (Some url)), t').
Proof.
  intros Hffi Hcaught Hurl Hne.
  assert (Hhttp : Engine.try_http h t'
                  = (Ret (mkEngine backend_http None None (Some url)), t')).
  { unfold Engine.try_http. rewrite Hurl. apply String.eqb_neq in Hne. rewrite Hne.
    reflexivity. }
  unfold Engine.__init__. rewrite Hffi.
  destruct x; cbn in Hcaught; try discriminate; exact Hhttp.
Qed.

Lemma init_falls_back_to_sidecar_witness :
  Engine.__init__ ascii_only host_with_sidecar None []
  = (Ret (mkEngine backend_http None None (Some "http://localhost:8080/")), []).
Proof.
  apply (init_falls_back_to_sidecar ascii_only host_with_sidecar None [] []
           (OSError Resolve._load_lib_error_message)).
  - apply try_ffi_load_failure. reflexivity.
  - reflexivity.
  - reflexivity.
  - discriminate.
Defined.



(** No fallback either when the library loads but does not export one
    of the [chitin_*] symbols: declaring the signatures raises
    AttributeError, which the constructor does not catch, before any
    library call and whether or not a sidecar is configured. *)
Theorem init_missing_symbol_escapes
    (utf8_valid : string -> bool) (h : host) (config_path : option string)
    (t : list tcall) (l : native_lib) :
  cdll h (Resolve.resolve_chitin_lib h) = Some l ->
  missing_symbol h (Resolve.resolve_chitin_lib h) = true ->
  Engine.__init__ utf8_valid h config_path t = (Raise AttributeError, t).
Proof.
  intros Hl Hsym.
  unfold Engine.__init__, Engine.try_ffi, bind, lift, load_ffi, _load_lib,
    _setup_signatures.
  rewrite Hl, Hsym. reflexivity.
Qed.

Lemma init_missing_symbol_escapes_witness :
  Engine.__init__ ascii_only host_with_incomplete_library None []
  = (Raise AttributeError, []).
Proof.
  apply (init_missing_symbol_escapes ascii_only host_with_incomplete_library None []
           (stub_lib CHITIN_OK 1 (None, 0) (CHITIN_ERR_NOT_FOUND, None, 0)));
    reflexivity.
Defined.

(** Close releases the native handle with exactly one
    [chitin_engine_free] call when the session is native and holds a
    handle, makes no call otherwise, always leaves the session closed
    with both adapters dropped, and a second close makes no call. *)
Theorem close_releases_once (e e' : engine) (t0 t1 : list tcall) :
  Engine.close e t0 = (Ret e', t1) ->
  t1 = t0 ++ match _backend e, _handle e with
             | backend_ffi, Some _ => [LibCall fn_engine_free]
             | _, _ => []
             end
  /\ _backend e' = backend_none /\ _ffi e' = None /\ _http e' = None
  /\ (_backend e = backend_ffi -> _handle e' = None)
  /\ (forall t, exists e'', Engine.close e' t = (Ret e'', t)
                            /\ _backend e'' = backend_none).
Proof.
  unfold Engine.close.
  destruct e as [b f hd u]. cbn [_backend _ffi _handle _http].
  destruct b, f as [l|], hd as [hv|]; cbn; intros H; inversion H; subst;
    cbn [_backend _ffi _handle _http];
    rewrite ?app_nil_r;
    (split; [reflexivity|]); (split; [reflexivity|]); (split; [reflexivity|]);
    (split; [reflexivity|]); (split; [intros; try reflexivity; discriminate|]);
    intros t; eexists; split; reflexivity.
Qed.

Lemma close_releases_once_witness :
  Engine.close
    (mkEngine backend_ffi
       (Some (stub_lib CHITIN_OK 1 (None, 0) (CHITIN_ERR_NOT_FOUND, None, 0)))
       (Some 1) None)
    [LibCall fn_engine_new]
  = (Ret (mkEngine backend_none None None None),
     [LibCall fn_engine_new; LibCall fn_engine_free])
  /\ (forall t, exists e'',
        Engine.close (mkEngine backend_none None None None) t = (Ret e'', t)
        /\ _backend e'' = backend_none).
Proof.
  split; [reflexivity|].
  exact (proj2 (proj2 (proj2 (proj2 (proj2
           (close_releases_once
              (mkEngine backend_ffi
                 (Some (stub_lib CHITIN_OK 1 (None, 0) (CHITIN_ERR_NOT_FOUND, None, 0)))
                 (Some 1) None)
              (mkEngine backend_none None None None)
              [LibCall fn_engine_new]
              [LibCall fn_engine_new; LibCall fn_engine_free] eq_refl)))))).
Defined.

(** Neither adapter defines [set_label]: on every session that is not
    closed, [Engine.set_label] raises AttributeError without making any
    transport call. *)
Theorem set_label_unsupported (e : engine) (ev : Z) (label : string)
    (t : list tcall) :
  _backend e <> backend_none ->
  Engine.set_label e ev label t = (Raise AttributeError, t).
Proof.
  intros Hopen. unfold Engine.set_label, Engine.dispatch, Engine._ensure_open, bind.
  destruct (_backend e); [contradiction| |]; cbn.
  - destruct (_ffi e); reflexivity.
  - destruct (_http e); reflexivity.
Qed.

Lemma set_label_unsupported_witness :
  Engine.set_label (mkEngine backend_http None None (Some "http://localhost:8080"))
    7 "pii" []
  = (Raise AttributeError, []).
Proof.
  apply set_label_unsupported. discriminate.
Defined.

(** ** One transport per session *)

Lemma extends_with_refl (P : tcall -> bool) (t : list tcall) : extends_with P t t.
Proof. exists []. rewrite app_nil_r. split; reflexivity. Qed.

Lemma extends_with_snoc (P : tcall -> bool) (t : list tcall) (c : tcall) :
  P c = true -> extends_with P t (t ++ [c]).
Proof. intros H. exists [c]. split; [reflexivity|]. cbn. rewrite H. reflexivity. Qed.

Lemma extends_with_calls_for (r : http_reply) (c : tcall) (t : list tcall) :
  is_http_call c = true -> extends_with is_http_call t (t ++ calls_for r c).
Proof.
  intros H. destruct r; cbn [calls_for];
    try (apply extends_with_snoc; exact H).
  rewrite app_nil_r. apply extends_with_refl.
Qed.

Lemma extends_with_trans (P : tcall -> bool) (t t1 t2 : list tcall) :
  extends_with P t t1 -> extends_with P t1 t2 -> extends_with P t t2.
Proof.
  intros (u & -> & Hu) (v & -> & Hv). exists (u ++ v). split.
  - rewrite app_assoc. reflexivity.
  - rewrite forallb_app, Hu, Hv. reflexivity.
Qed.

(** Peel the first emitted call off a trace extension. *)
Ltac after_call c :=
  match goal with
  | |- extends_with ?P ?t _ =>
      apply extends_with_trans with (t1 := t ++ [c]);
      [apply extends_with_snoc; reflexivity|]
  end.

Section NativeTraces.
Variable utf8_valid : string -> bool.
Variable json_loads : string -> option pyval.
Variable json_dumps : pyval -> string.
Variable lib : native_lib.

Lemma last_error_native (t : list tcall) :
  extends_with is_native_call t (snd (FFI._last_error utf8_valid lib t)).
Proof.
  rewrite last_error_run. cbn zeta.
  destruct (chitin_last_error lib) as [[st out_json] out_len].
  destruct out_json as [buf|].
  - destruct (Z.eqb st CHITIN_ERR_NOT_FOUND); cbn [snd].
    + apply extends_with_snoc. reflexivity.
    + after_call (LibCall fn_last_error). apply extends_with_snoc. reflexivity.
  - apply extends_with_snoc. reflexivity.
Qed.

Lemma check_ok_native (st : Z) (t : list tcall) :
  extends_with is_native_call t (snd (FFI.check_ok utf8_valid lib st t)).
Proof.
  unfold FFI.check_ok. destruct (Z.eqb st CHITIN_OK); [apply extends_with_refl|].
  unfold bind. pose proof (last_error_native t) as H.
  destruct (FFI._last_error utf8_valid lib t) as [[msg|x] t']; exact H.
Qed.

Lemma call_then_check_native {A} (f : lib_fn) (st : Z) (a : A) (t : list tcall) :
  extends_with is_native_call t
    (snd (bind (FFI.check_ok utf8_valid lib st) (fun _ => ret a) (t ++ [LibCall f]))).
Proof.
  after_call (LibCall f).
  unfold bind. pose proof (check_ok_native st (t ++ [LibCall f])) as H.
  destruct (FFI.check_ok utf8_valid lib st (t ++ [LibCall f])) as [[[]|x] t']; exact H.
Qed.

Lemma ffi_ingest_native engine content trust_level metadata (t : list tcall) :
  extends_with is_native_call t
    (snd (FFI.ingest utf8_valid json_dumps lib engine content trust_level metadata t)).
Proof.
  unfold FFI.ingest. unfold bind at 1. rewrite emit_run.
  destruct (FFI.ingest_call json_dumps lib engine content trust_level metadata)
    as [st out_id].
  apply call_then_check_native.
Qed.

Lemma ffi_record_result_native engine tool_call_id output exit_code (t : list tcall) :
  extends_with is_native_call t
    (snd (FFI.record_result utf8_valid lib engine tool_call_id output exit_code t)).
Proof.
  unfold FFI.record_result. unfold bind at 1. rewrite emit_run.
  destruct (FFI.record_result_call lib engine tool_call_id output exit_code)
    as [st out_id].
  apply call_then_check_native.
Qed.

Lemma ffi_is_traced_native engine ev label (t : list tcall) :
  extends_with is_native_call t
    (snd (FFI.is_traced utf8_valid lib engine ev label t)).
Proof.
  unfold FFI.is_traced. unfold bind at 1. rewrite emit_run.
  destruct (FFI.is_traced_call lib engine ev label) as [st out_result].
  apply call_then_check_native.
Qed.

Lemma ffi_register_tool_native engine name risk category (t : list tcall) :
  extends_with is_native_call t
    (snd (FFI.register_tool utf8_valid json_dumps lib engine name risk category t)).
Proof.
  unfold FFI.register_tool. unfold bind at 1. rewrite emit_run.
  after_call (LibCall fn_register_tool).
  apply check_ok_native.
Qed.

Lemma ffi_propose_native engine tool params agent_id input_sources (t : list tcall) :
  extends_with is_native_call t
    (snd (FFI.propose utf8_valid json_loads lib engine tool params agent_id
            input_sources t)).
Proof.
  rewrite propose_run. cbn zeta.
  destruct (FFI.propose_call lib engine tool params agent_id input_sources) as [st out_id].
  destruct (Z.eqb st CHITIN_OK); [apply extends_with_snoc; reflexivity|].
  after_call (LibCall fn_propose).
  pose proof (last_error_native (t ++ [LibCall fn_propose])) as H.
  destruct (FFI._last_error utf8_valid lib (t ++ [LibCall fn_propose])) as [[err|x] t2];
    [|exact H].
  destruct (Z.eqb st CHITIN_ERR_DENIED || Z.eqb st CHITIN_ERR_ESCALATED); exact H.
Qed.

Lemma ffi_explain_native engine ev (t : list tcall) :
  extends_with is_native_call t
    (snd (FFI.explain utf8_valid json_loads lib engine ev t)).
Proof.
  rewrite explain_run. cbn zeta.
  destruct (chitin_explain lib engine (c_uint64 ev)) as [[st out_json] out_len].
  after_call (LibCall fn_explain).
  pose proof (check_ok_native st (t ++ [LibCall fn_explain])) as H.
  destruct (FFI.check_ok utf8_valid lib st (t ++ [LibCall fn_explain])) as [[[]|x] t2];
    [|exact H].
  destruct out_json as [buf|]; [|exact H].
  destruct (Z.eqb out_len 0); [exact H|].
  eapply extends_with_trans; [exact H|].
  assert (Hf : extends_with is_native_call t2 (t2 ++ [freed_copy buf out_len]))
    by (apply extends_with_snoc; reflexivity).
  destruct (decode_utf8 utf8_valid (read_text buf out_len)) as [txt|x]; [|exact Hf].
  destruct (json_loads txt) as [[| | | | |obj]|]; exact Hf.
Qed.

End NativeTraces.

Lemma dispatch_unbound_adapter {A} (e : engine) (native : native_lib -> Z -> M A)
    (rpc : string -> M A) (t : list tcall) :
  (_backend e = backend_ffi /\ _ffi e = None)
  \/ (_backend e = backend_http /\ _http e = None) ->
  Engine.dispatch e native rpc t = (Raise AttributeError, t).
Proof.
  intros [[Hb Hf] | [Hb Hu]];
    unfold Engine.dispatch, Engine._ensure_open, bind; rewrite Hb; cbn.
  - rewrite Hf. reflexivity.
  - rewrite Hu. reflexivity.
Qed.

(** A session talks to one transport only.  Every operation of a native
    session adds only native library calls to the trace, and every
    operation of an RPC session adds only HTTP requests. *)
Theorem session_uses_one_transport
    (utf8_valid : string -> bool) (json_loads : string -> option pyval)
    (json_dumps : pyval -> string) (int_of_str : string -> option Z)
    (sidecar : string -> gmap string pyval -> http_reply)
    (e : engine) (t : list tcall) :
  let P := match _backend e with
           | backend_http => is_http_call
           | _ => is_native_call
           end in
  (forall content trust_level metadata,
      extends_with P t
        (snd (Engine.ingest utf8_valid json_loads json_dumps int_of_str sidecar e
                content trust_level metadata t)))
  /\ (forall tool params agent_id input_sources,
      extends_with P t
        (snd (Engine.propose utf8_valid json_loads int_of_str sidecar e
                tool params agent_id input_sources t)))
  /\ (forall tool_call_id output exit_code,
      extends_with P t
        (snd (Engine.record_result utf8_valid json_loads int_of_str sidecar e
                tool_call_id output exit_code t)))
  /\ (forall ev label,
      extends_with P t
        (snd (Engine.is_traced utf8_valid json_loads sidecar e ev label t)))
  /\ (forall ev,
      extends_with P t
        (snd (Engine.explain utf8_valid json_loads sidecar e ev t)))
  /\ (forall name risk category,
      extends_with P t
        (snd (Engine.register_tool utf8_valid json_loads json_dumps sidecar e
                name risk category t))).
Proof.
  intros P. subst P.
  destruct (_backend e) eqn:Hb.
  - repeat split; intros;
      match goal with
      | |- extends_with _ _ (snd (?op)) =>
          unfold Engine.ingest, Engine.propose, Engine.record_result, Engine.is_traced,
            Engine.explain, Engine.register_tool;
          rewrite (dispatch_closed _ _ _ _ Hb); apply extends_with_refl
      end.
  - destruct (_ffi e) as [l|] eqn:Hf.
    + repeat split; intros;
        unfold Engine.ingest, Engine.propose, Engine.record_result, Engine.is_traced,
          Engine.explain, Engine.register_tool;
        rewrite (dispatch_native _ _ _ _ _ Hb Hf).
      * apply ffi_ingest_native.
      * apply ffi_propose_native.
      * apply ffi_record_result_native.
      * apply ffi_is_traced_native.
      * apply ffi_explain_native.
      * apply ffi_register_tool_native.
    + repeat split; intros;
        unfold Engine.ingest, Engine.propose, Engine.record_result, Engine.is_traced,
          Engine.explain, Engine.register_tool;
        rewrite (dispatch_unbound_adapter _ _ _ _ (or_introl (conj Hb Hf)));
        apply extends_with_refl.
  - destruct (_http e) as [url|] eqn:Hu.
    + repeat split; intros;
        unfold Engine.ingest, Engine.propose, Engine.record_result, Engine.is_traced,
          Engine.explain, Engine.register_tool;
        rewrite (dispatch_rpc _ _ _ _ _ Hb Hu).
      * rewrite http_ingest_trace. apply extends_with_calls_for. reflexivity.
      * rewrite http_propose_trace. apply extends_with_calls_for. reflexivity.
      * rewrite http_record_result_trace. apply extends_with_calls_for. reflexivity.
      * rewrite http_is_traced_trace. apply extends_with_calls_for. reflexivity.
      * rewrite http_explain_trace. apply extends_with_calls_for. reflexivity.
      * rewrite http_register_tool_trace. apply extends_with_calls_for. reflexivity.
    + repeat split; intros;
        unfold Engine.ingest, Engine.propose, Engine.record_result, Engine.is_traced,
          Engine.explain, Engine.register_tool;
        rewrite (dispatch_unbound_adapter _ _ _ _ (or_intror (conj Hb Hu)));
        apply extends_with_refl.
Qed.

(** ** RPC adapter: returned values *)

Lemma py_or_default_not_none (v dflt : pyval) :
  dflt <> PNone ->
  py_or v dflt <> PNone /\ (py_or v dflt = v /\ py_bool v = true \/ py_or v dflt = dflt).
Proof.
  intros Hd. unfold py_or. destruct (py_bool v) eqn:E.
  - split; [|left; split; reflexivity]. intros ->. discriminate.
  - split; [exact Hd | right; reflexivity].
Qed.

(** An ExplainResult returned over RPC never holds None: a [text] or
    [trace_chain] that is missing, null or otherwise falsy is replaced
    by "" and [] respectively. *)
Theorem rpc_explain_fields_never_none
    (utf8_valid : string -> bool) (json_loads : string -> option pyval)
    (sidecar : string -> gmap string pyval -> http_reply) (base_url : string)
    (ev : Z) (res : ExplainResult) (t t' : list tcall) :
  HTTP.explain utf8_valid json_loads sidecar base_url ev t = (Ret res, t') ->
  text res <> PNone
  /\ trace_chain res <> PNone
  /\ (py_bool (text res) = true \/ text res = PStr "")
  /\ (py_bool (trace_chain res) = true \/ trace_chain res = PList []).
Proof.
  unfold HTTP.explain, bind.
  destruct (HTTP._post utf8_valid json_loads sidecar base_url "/explain"
              (HTTP.explain_body ev) t) as [[v|x] t1]; [|discriminate].
  destruct v as [| | | | |d]; cbn [as_dict lift]; try discriminate.
  cbn zeta.
  destruct (negb (py_eq_int (dict_get_default d "status" (PInt CHITIN_OK)) CHITIN_OK));
    [discriminate|].
  intros H. inversion H; subst. cbn [text trace_chain].
  destruct (py_or_default_not_none (dict_get d "text") (PStr "")) as [Ht1 Ht2];
    [discriminate|].
  destruct (py_or_default_not_none (dict_get d "trace_chain") (PList [])) as [Hc1 Hc2];
    [discriminate|].
  repeat split; try assumption.
  - destruct Ht2 as [[-> Hb] | ->]; [left; exact Hb | right; reflexivity].
  - destruct Hc2 as [[-> Hb] | ->]; [left; exact Hb | right; reflexivity].
Qed.

Lemma rpc_explain_fields_never_none_witness :
  text (mkExplainResult (PStr "") (PList [])) <> PNone.
Proof.
  exact (proj1 (rpc_explain_fields_never_none ascii_only sample_json_loads
                  (stub_sidecar (Http2xx 200 body_event_only)) "http://localhost:8080" 9
                  (mkExplainResult (PStr "") (PList []))
                  [] [HttpPost "http://localhost:8080/explain" (HTTP.explain_body 9)]
                  eq_refl)).
Defined.

(** On a 2xx object whose status is OK (or, for ingest and
    record_result, absent), ingest and record_result return [int] of the
    [event_id] field, and is_traced returns the truthiness of [traced],
    False when the field is missing. *)
Theorem rpc_success_values
    (utf8_valid : string -> bool) (json_loads : string -> option pyval)
    (int_of_str : string -> option Z)
    (sidecar : string -> gmap string pyval -> http_reply) (base_url : string)
    (d : gmap string pyval) (t t' : list tcall) :
  (forall content trust_level metadata n,
      HTTP._post utf8_valid json_loads sidecar base_url "/ingest"
        (HTTP.ingest_body content trust_level metadata) t = (Ret (PDict d), t') ->
      py_eq_int (dict_get_default d "status" (PInt CHITIN_OK)) CHITIN_OK = true ->
      d !! "event_id" = Some (PInt n) ->
      HTTP.ingest utf8_valid json_loads int_of_str sidecar base_url
        content trust_level metadata t = (Ret n, t'))
  /\ (forall tool_call_id output exit_code n,
      HTTP._post utf8_valid json_loads sidecar base_url "/record_result"
        (HTTP.record_result_body tool_call_id output exit_code) t = (Ret (PDict d), t') ->
      py_eq_int (dict_get_default d "status" (PInt CHITIN_OK)) CHITIN_OK = true ->
      d !! "event_id" = Some (PInt n) ->
      HTTP.record_result utf8_valid json_loads int_of_str sidecar base_url
        tool_call_id output exit_code t = (Ret n, t'))
  /\ (forall ev label,
      HTTP._post utf8_valid json_loads sidecar base_url "/is_traced"
        (HTTP.is_traced_body ev label) t = (Ret (PDict d), t') ->
      py_eq_int (dict_get d "status") CHITIN_OK = true ->
      HTTP.is_traced utf8_valid json_loads sidecar base_url ev label t
        = (Ret (py_bool (dict_get_default d "traced" (PBool false))), t')
      /\ (d !! "traced" = None ->
          HTTP.is_traced utf8_valid json_loads sidecar base_url ev label t
            = (Ret false, t'))).
Proof.
  split; [|split; [|intros ev label Hpost Hst; split]].
  - intros content trust_level metadata n Hpost Hst Hid.
    rewrite (ingest_on_object _ _ _ _ _ _ _ _ _ _ _ Hpost). cbn zeta. rewrite Hst.
    apply int_event_id_int. exact Hid.
  - intros tool_call_id output exit_code n Hpost Hst Hid.
    rewrite (record_result_on_object _ _ _ _ _ _ _ _ _ _ _ Hpost). cbn zeta. rewrite Hst.
    apply int_event_id_int. exact Hid.
  - rewrite (is_traced_on_object _ _ _ _ _ _ _ _ _ Hpost), Hst. reflexivity.
  - intros Hmiss.
    rewrite (is_traced_on_object _ _ _ _ _ _ _ _ _ Hpost), Hst.
    unfold dict_get_default. rewrite Hmiss. reflexivity.
Qed.

(** ** Loading and constructing the native engine *)

(** [_load_lib] returns the library the loader gives for the resolved
    path; when the loader rejects it, the OSError raised names both
    CHITIN_LIB_PATH and CHITIN_SIDECAR_URL. *)
Theorem load_lib_outcomes (h : host) :
  (forall l, cdll h (Resolve.resolve_chitin_lib h) = Some l -> _load_lib h = Ret l)
  /\ (cdll h (Resolve.resolve_chitin_lib h) = None ->
      exists msg, _load_lib h = Raise (OSError msg)
                  /\ contains "CHITIN_LIB_PATH" msg = true
                  /\ contains "CHITIN_SIDECAR_URL" msg = true).
Proof.
  unfold _load_lib. split.
  - intros l ->. reflexivity.
  - intros ->. exists Resolve._load_lib_error_message.
    split; [reflexivity|]. split; vm_compute; reflexivity.
Qed.

(** [engine_new] passes an absent configuration path as (NULL, 0) and a
    given one with its byte length; a NULL handle raises ChitinError with
    status INTERNAL and the last-error text, "unknown error" when the
    engine recorded none. *)
Theorem engine_new_outcomes
    (utf8_valid : string -> bool) (lib : native_lib) (t : list tcall) :
  (forall handle,
      chitin_engine_new lib None 0 = Some handle ->
      FFI.engine_new utf8_valid lib None t = (Ret handle, t ++ [LibCall fn_engine_new]))
  /\ (forall path handle,
      chitin_engine_new lib (Some path) (Z.of_nat (String.length path)) = Some handle ->
      FFI.engine_new utf8_valid lib (Some path) t
        = (Ret handle, t ++ [LibCall fn_engine_new]))
  /\ (forall config_path msg t',
      chitin_engine_new lib (fst (_to_buf config_path)) (snd (_to_buf config_path))
        = None ->
      FFI._last_error utf8_valid lib (t ++ [LibCall fn_engine_new]) = (Ret msg, t') ->
      FFI.engine_new utf8_valid lib config_path t
        = (Raise (ChitinError (PInt CHITIN_ERR_INTERNAL) (PStr msg)), t'))
  /\ (forall config_path len,
      chitin_engine_new lib (fst (_to_buf config_path)) (snd (_to_buf config_path))
        = None ->
      chitin_last_error lib = (CHITIN_ERR_NOT_FOUND, None, len) ->
      fst (FFI.engine_new utf8_valid lib config_path t)
        = Raise (ChitinError (PInt CHITIN_ERR_INTERNAL) (PStr "unknown error"))).
Proof.
  repeat split.
  - intros handle H. unfold FFI.engine_new, bind. cbn [_to_buf].
    rewrite emit_run, H. reflexivity.
  - intros path handle H. unfold FFI.engine_new, bind. cbn [_to_buf].
    rewrite emit_run, H. reflexivity.
  - intros config_path msg t' Hnew Hle. unfold FFI.engine_new.
    destruct (_to_buf config_path) as [path_buf path_len]. cbn [fst snd] in Hnew.
    unfold bind. rewrite emit_run, Hnew, Hle. reflexivity.
  - intros config_path len Hnew Hle. unfold FFI.engine_new.
    destruct (_to_buf config_path) as [path_buf path_len]. cbn [fst snd] in Hnew.
    unfold bind. rewrite emit_run, Hnew.
    rewrite (last_error_no_buffer utf8_valid lib _ _ len Hle). reflexivity.
Qed.

(** ** RPC adapter: malformed and ignored bodies *)

(** A 2xx response whose non-empty body is not UTF-8 or not JSON is not
    turned into a ChitinError: [_post], and with it every operation,
    raises UnicodeDecodeError or JSONDecodeError after its one request. *)
Theorem rpc_malformed_2xx_body
    (utf8_valid : string -> bool) (json_loads : string -> option pyval)
    (sidecar : string -> gmap string pyval -> http_reply) (base_url path : string)
    (body : gmap string pyval) (t : list tcall) (status : Z) (raw : string) :
  HTTP.reply_to sidecar base_url path body = Http2xx status raw ->
  empty_reply (Http2xx status raw) = false ->
  (utf8_valid raw = false ->
     HTTP._post utf8_valid json_loads sidecar base_url path body t
       = (Raise UnicodeDecodeError, t ++ [HttpPost (HTTP._base base_url ++ path) body]))
  /\ (utf8_valid raw = true -> json_loads raw = None ->
      HTTP._post utf8_valid json_loads sidecar base_url path body t
        = (Raise JSONDecodeError, t ++ [HttpPost (HTTP._base base_url ++ path) body])).
Proof.
  intros Hr He. unfold empty_reply in He.
  split.
  - intros Hu. unfold HTTP._post. rewrite Hr. unfold bind. rewrite emit_run, He.
    unfold lift, decode_utf8. rewrite Hu. reflexivity.
  - intros Hu Hj. unfold HTTP._post. rewrite Hr. unfold bind. rewrite emit_run, He.
    unfold lift, decode_utf8. rewrite Hu, Hj. reflexivity.
Qed.

Lemma rpc_malformed_2xx_body_witness :
  HTTP.ingest ascii_only sample_json_loads int_of_str_stub
    (stub_sidecar (Http2xx 200 "<html>")) "http://localhost:8080"
    "hi" TrustLevel.USER None []
  = (Raise JSONDecodeError,
     [HttpPost "http://localhost:8080/ingest"
        (HTTP.ingest_body "hi" TrustLevel.USER None)]).
Proof.
  apply ingest_post_raises.
  apply (proj2 (rpc_malformed_2xx_body ascii_only sample_json_loads
                  (stub_sidecar (Http2xx 200 "<html>")) "http://localhost:8080" "/ingest"
                  (HTTP.ingest_body "hi" TrustLevel.USER None) [] 200 "<html>"
                  eq_refl eq_refl));
    reflexivity.
Defined.

(** register_tool over RPC does not read the response: it returns for
    every 2xx response that is empty or parses as JSON, also when the
    body carries a non-OK status. *)
Theorem rpc_register_tool_ignores_body
    (utf8_valid : string -> bool) (json_loads : string -> option pyval)
    (sidecar : string -> gmap string pyval -> http_reply) (base_url : string)
    (name risk : string) (category : option string) (t : list tcall)
    (status : Z) (raw : string) :
  HTTP.reply_to sidecar base_url "/register_tool"
    (HTTP.register_tool_body name risk category) = Http2xx status raw ->
  empty_reply (Http2xx status raw) = true
  \/ (utf8_valid raw = true /\ exists v, json_loads raw = Some v) ->
  HTTP.register_tool utf8_valid json_loads sidecar base_url name risk category t
    = (Ret tt, t ++ [HttpPost (HTTP._base base_url ++ "/register_tool")
                       (HTTP.register_tool_body name risk category)]).
Proof.
  intros Hr Hbody.
  destruct (empty_reply (Http2xx status raw)) eqn:He.
  - apply register_tool_on_value with (v := PDict ∅).
    apply post_empty. rewrite Hr. exact He.
  - destruct Hbody as [Hbody | [Hu [v Hj]]]; [discriminate|].
    apply register_tool_on_value with (v := v).
    exact (post_2xx _ _ _ _ _ _ t _ _ _ Hr He Hu Hj).
Qed.

Lemma rpc_register_tool_ignores_body_witness :
  HTTP.register_tool ascii_only sample_json_loads
    (stub_sidecar (Http2xx 200 error_payload_denied)) "http://localhost:8080"
    "noop" "high" None []
  = (Ret tt, [HttpPost "http://localhost:8080/register_tool"
                (HTTP.register_tool_body "noop" "high" None)]).
Proof.
  apply (rpc_register_tool_ignores_body ascii_only sample_json_loads
           (stub_sidecar (Http2xx 200 error_payload_denied)) "http://localhost:8080"
           "noop" "high" None [] 200 error_payload_denied eq_refl).
  right. split; [reflexivity|]. eexists. reflexivity.
Defined.
